(** * sunxi-g2d: the Allwinner 2D accelerator driver, embedded in Rocq

    The development follows the two C files of the driver:
    - [sunxi_g2d_hw.c]: register access, reset and interrupt handling, the
      channel-layout table [fmt2yuvcnt], and the layer / blender / write-back
      programming used by the rectangle fill;
    - the V4L2 front end: the format catalogue [g2d_supported_fmts],
      [find_fmt], [g2d_try_fmt] and the selection ioctls.

    C integers are kept as [Z] with the wrap-around of their type written
    out ([u32]); pointers that may be NULL are [option]s; code that writes
    registers is a state-and-fault monad over the register file. *)

From Stdlib Require Import ZArith List Lia Bool Ascii.
Import ListNotations.
Local Open Scope Z_scope.

(** ** Machine integers and the kernel macros the driver uses *)

(** Conversion to [uint32_t]. *)
Definition u32 (x : Z) : Z := x mod 2 ^ 32.

(** Conversion to a 64-bit unsigned type. *)
Definition u64 (x : Z) : Z := x mod 2 ^ 64.

(** [~x] at type [uint32_t]. *)
Definition not32 (x : Z) : Z := u32 (Z.lnot x).

(** [BIT(n)] and [GENMASK(h, l)] of <linux/bits.h>. *)
Definition BIT (n : Z) : Z := Z.shiftl 1 n.
Definition GENMASK (h l : Z) : Z := Z.shiftl (Z.ones (h - l + 1)) l.

(** [ALIGN(x, a)] of <linux/align.h>, at the type of [x] (here always
    [uint32_t]): [(x + (a - 1)) & ~(a - 1)]. *)
Definition ALIGN (x a : Z) : Z :=
  Z.land (u32 (x + u32 (a - 1))) (not32 (a - 1)).

(** [__bf_shf(mask)] of <linux/bitfield.h>: the index of the lowest set bit. *)
Definition bf_shf (mask : Z) : Z := Z.log2 (Z.land mask (- mask)).

(** [FIELD_PREP(mask, val)]: the value shifted into the field, the result
    stored in a [uint32_t]. *)
Definition FIELD_PREP (mask val : Z) : Z :=
  u32 (Z.land (Z.shiftl val (bf_shf mask)) mask).

(** [clamp(val, lo, hi)] of <linux/minmax.h>. *)
Definition clamp (val lo hi : Z) : Z := Z.min (Z.max val lo) hi.

(** [-EINVAL]. *)
Definition EINVAL : Z := 22.

(** ** sunxi_g2d_hw.h: hardware pixel format ids ([enum g2d_fmt_hw_id]) *)

Definition G2D_FORMAT_ARGB8888 : Z := 0.
Definition G2D_FORMAT_ABGR8888 : Z := 1.
Definition G2D_FORMAT_RGBA8888 : Z := 2.
Definition G2D_FORMAT_BGRA8888 : Z := 3.
Definition G2D_FORMAT_XRGB8888 : Z := 4.
Definition G2D_FORMAT_XBGR8888 : Z := 5.
Definition G2D_FORMAT_RGBX8888 : Z := 6.
Definition G2D_FORMAT_BGRX8888 : Z := 7.
Definition G2D_FORMAT_RGB888 : Z := 8.
Definition G2D_FORMAT_BGR888 : Z := 9.
Definition G2D_FORMAT_RGB565 : Z := 10.
Definition G2D_FORMAT_BGR565 : Z := 11.
Definition G2D_FORMAT_ARGB4444 : Z := 12.
Definition G2D_FORMAT_ABGR4444 : Z := 13.
Definition G2D_FORMAT_RGBA4444 : Z := 14.
Definition G2D_FORMAT_BGRA4444 : Z := 15.
Definition G2D_FORMAT_ARGB1555 : Z := 16.
Definition G2D_FORMAT_ABGR1555 : Z := 17.
Definition G2D_FORMAT_RGBA5551 : Z := 18.
Definition G2D_FORMAT_BGRA5551 : Z := 19.
Definition G2D_FORMAT_ARGB2101010 : Z := 20.
Definition G2D_FORMAT_ABGR2101010 : Z := 21.
Definition G2D_FORMAT_RGBA1010102 : Z := 22.
Definition G2D_FORMAT_BGRA1010102 : Z := 23.
(* Invalid for UI channel *)
Definition G2D_FORMAT_IYUV422_V0Y1U0Y0 : Z := 0x20.
Definition G2D_FORMAT_IYUV422_Y1V0Y0U0 : Z := 0x21.
Definition G2D_FORMAT_IYUV422_U0Y1V0Y0 : Z := 0x22.
Definition G2D_FORMAT_IYUV422_Y1U0Y0V0 : Z := 0x23.
Definition G2D_FORMAT_YUV422UVC_V1U1V0U0 : Z := 0x24.
Definition G2D_FORMAT_YUV422UVC_U1V1U0V0 : Z := 0x25.
Definition G2D_FORMAT_YUV422_PLANAR : Z := 0x26.
Definition G2D_FORMAT_YUV420UVC_V1U1V0U0 : Z := 0x28.
Definition G2D_FORMAT_YUV420UVC_U1V1U0V0 : Z := 0x29.
Definition G2D_FORMAT_YUV420_PLANAR : Z := 0x2a.
Definition G2D_FORMAT_YUV411UVC_V1U1V0U0 : Z := 0x2c.
Definition G2D_FORMAT_YUV411UVC_U1V1U0V0 : Z := 0x2d.
Definition G2D_FORMAT_YUV411_PLANAR : Z := 0x2e.
Definition G2D_FORMAT_Y8 : Z := 0x30.
(* YUV 10bit format *)
Definition G2D_FORMAT_YVU10_P010 : Z := 0x34.
Definition G2D_FORMAT_YVU10_P210 : Z := 0x36.
Definition G2D_FORMAT_YVU10_444 : Z := 0x38.
Definition G2D_FORMAT_YUV10_444 : Z := 0x39.
Definition G2D_FORMAT_MAX : Z := 0x3a.

(** ** sunxi_g2d.h: formats and frames *)

Definition G2D_MIN_WIDTH : Z := 8.
Definition G2D_MIN_HEIGHT : Z := 8.
Definition G2D_MAX_WIDTH : Z := 2048.
Definition G2D_MAX_HEIGHT : Z := 2048.

(** [struct g2d_fmt]. *)
Record g2d_fmt : Type := {
  fourcc : Z;   (* u32 *)
  depth : Z;    (* int *)
  hw_id : Z     (* u32 *)
}.

(** The fields of [struct v4l2_pix_format] the driver reads or writes. *)
Record v4l2_pix_format : Type := {
  width : Z;         (* __u32 *)
  height : Z;        (* __u32 *)
  pixelformat : Z;   (* __u32 *)
  bytesperline : Z;  (* __u32 *)
  sizeimage : Z;     (* __u32 *)
  flags : Z          (* __u32 *)
}.

(** [struct v4l2_rect]: [left] and [top] are [__s32], the sizes [__u32]. *)
Record v4l2_rect : Type := {
  left : Z;
  top : Z;
  r_width : Z;
  r_height : Z
}.

(** [struct v4l2_selection]. *)
Record v4l2_selection : Type := {
  sel_type : Z;
  target : Z;
  r : v4l2_rect
}.

(** [struct g2d_frame]. *)
Record g2d_frame : Type := {
  v4l2_pix_fmt : v4l2_pix_format;
  premult_alpha : bool;
  alpha_bld_mode : Z;   (* enum g2d_alpha_bld_mode *)
  alignment : Z;        (* uint32_t *)
  sel : v4l2_selection
}.

(** [enum g2d_op]. *)
Inductive g2d_op : Type := G2D_RECTFILL | G2D_BITBLT.

(** [struct sunxi_g2d_ctx]: the two frames of a context and its rectangle
    fill controls (the V4L2 bookkeeping fields are left out). *)
Record sunxi_g2d_ctx : Type := {
  src : g2d_frame;
  dst : g2d_frame;
  rectfill_color : Z;        (* uint32_t *)
  rectfill_color_alpha : Z;  (* uint32_t *)
  chosen_g2d_op : g2d_op
}.

(** ** The format catalogue *)

(** [v4l2_fourcc(a, b, c, d)] of <linux/videodev2.h>. *)
Definition v4l2_fourcc (a b c d : ascii) : Z :=
  Z.lor (Z.of_nat (nat_of_ascii a))
    (Z.lor (Z.shiftl (Z.of_nat (nat_of_ascii b)) 8)
       (Z.lor (Z.shiftl (Z.of_nat (nat_of_ascii c)) 16)
          (Z.shiftl (Z.of_nat (nat_of_ascii d)) 24))).

Definition V4L2_PIX_FMT_XBGR32 : Z := v4l2_fourcc "X" "R" "2" "4".
Definition V4L2_PIX_FMT_RGB24 : Z := v4l2_fourcc "R" "G" "B" "3".
Definition V4L2_PIX_FMT_YUV420 : Z := v4l2_fourcc "Y" "U" "1" "2".

(** [g2d_supported_fmts]: the one entry the driver ships. *)
Definition g2d_supported_fmts : list g2d_fmt :=
  [ {| fourcc := V4L2_PIX_FMT_XBGR32; depth := 32;
       hw_id := G2D_FORMAT_BGRX8888 |} ].

(** The loop of [find_fmt] over a table: the first entry whose fourcc is the
    requested pixel format, [None] for the NULL the C function returns. *)
Fixpoint find_fmt_in (fmts : list g2d_fmt) (pix : v4l2_pix_format)
  : option g2d_fmt :=
  match fmts with
  | [] => None
  | f :: rest =>
      if fourcc f =? pixelformat pix then Some f else find_fmt_in rest pix
  end.

Definition find_fmt (pix : v4l2_pix_format) : option g2d_fmt :=
  find_fmt_in g2d_supported_fmts pix.

(** [v4l2_fmt_to_hw_id]: the hardware id of the entry found, the id of
    BGRX8888 when [find_fmt] returns NULL. *)
Definition v4l2_fmt_to_hw_id (pix : v4l2_pix_format) : Z :=
  match find_fmt pix with
  | Some fmt => hw_id fmt
  | None => G2D_FORMAT_BGRX8888
  end.

(** ** The channel-layout table *)

(** [fmt2yuvcnt]: the three out-parameters are returned as a triple
    [(ycnt, ucnt, vcnt)]; each starts at 0 and the first matching range of
    the cascade overwrites it. *)
Definition fmt2yuvcnt (format : Z) : Z * Z * Z :=
  if format <=? G2D_FORMAT_BGRX8888 then (4, 0, 0)
  else if format <=? G2D_FORMAT_BGR888 then (3, 0, 0)
  else if format <=? G2D_FORMAT_BGRA5551 then (2, 0, 0)
  else if format <=? G2D_FORMAT_BGRA1010102 then (4, 0, 0)
  else if format <=? 0x23 then (2, 0, 0)
  else if format <=? 0x25 then (1, 2, 0)
  else if format =? 0x26 then (1, 1, 1)
  else if format <=? 0x29 then (1, 2, 0)
  else if format =? 0x2a then (1, 1, 1)
  else if format <=? 0x2d then (1, 2, 0)
  else if format =? 0x2e then (1, 1, 1)
  else if format =? 0x30 then (1, 0, 0)
  else if format <=? 0x36 then (2, 4, 0)
  else if format <=? 0x39 then (6, 0, 0)
  else (0, 0, 0).

Definition ycnt_of (c : Z * Z * Z) : Z := fst (fst c).
Definition ucnt_of (c : Z * Z * Z) : Z := snd (fst c).
Definition vcnt_of (c : Z * Z * Z) : Z := snd c.

(** ** The register file

    [sunxi_g2d_regs.h] is not among the sources.  The registers it names are
    kept symbolic, one constructor per macro the driver uses; the bit masks
    and field masks it defines are the parameters of the model
    ([sunxi_g2d_regs] below). *)

Inductive reg : Type :=
  | G2D_SCLK_GATE | G2D_HCLK_GATE | G2D_AHB_RESET
  | G2D_MIXER_CTL | G2D_MIXER_INT
  | V0_ATTCTL | V0_MBSIZE | V0_SIZE | V0_COOR
  | V0_PITCH0 | V0_PITCH1 | V0_PITCH2
  | V0_LADDR0 | V0_LADDR1 | V0_LADDR2 | V0_HADDR | V0_FILLC
  | UI0_ATTR | UI0_FILLC | UI1_ATTR | UI1_FILLC | UI2_ATTR | UI2_FILLC
  | BLD_EN_CTL | BLD_PREMUL_CTL
  | BLD_CH_ISIZE0 | BLD_CH_ISIZE1 | BLD_CH_OFFSET0 | BLD_CH_OFFSET1
  | BLD_OUT_COLOR | BLD_OUT_SIZE | ROP_CTL
  | WB_ATT | WB_SIZE
  | WB_PITCH0 | WB_PITCH1 | WB_PITCH2
  | WB_LADD0 | WB_LADD1 | WB_LADD2
  | WB_HADD0 | WB_HADD1 | WB_HADD2.

Scheme Equality for reg.

(** The masks of [sunxi_g2d_regs.h]. *)
Class sunxi_g2d_regs : Type := {
  G2D_SCLK_GATE_MIXER : Z;
  G2D_SCLK_GATE_ROT : Z;
  G2D_HCLK_GATE_MIXER : Z;
  G2D_HCLK_GATE_ROT : Z;
  G2D_AHB_MIXER_RESET : Z;
  G2D_AHB_ROT_RESET : Z;
  G2D_MIXER_CTL_START : Z;
  G2D_MIXER_INT_FINISH_IRQ_EN : Z;
  G2D_MIXER_INT_IRQ_PENDING : Z;
  V0_ATTCTL_FILLCOLOR_EN : Z;
  V0_ATTCTL_GLBALPHA : Z;
  V0_ATTCTL_PREMUL_CTL : Z;
  V0_ATTCTL_FBFMT : Z;
  V0_ATTCTL_ALPHA_MODE : Z;
  V0_ATTCTL_EN : Z;
  V0_MBSIZE_WIDTH : Z;
  V0_MBSIZE_HEIGHT : Z;
  V0_HADDR0 : Z;
  V0_HADDR1 : Z;
  V0_HADDR2 : Z;
  BLD_PIPE0_EN : Z;
  BLD_PIPE1_EN : Z;
  BLD_PREMUL_CTL_PIPE0_ALPHA_MODE : Z;
  BLD_PREMUL_CTL_PIPE1_ALPHA_MODE : Z;
  BLD_OUT_COLOR_ALPHA_MODE : Z;
  BLD_OUT_COLOR_PREMUL_EN : Z;
  ROP_CTL_BLUE_BYPASS_EN : Z;
  ROP_CTL_GREEN_BYPASS_EN : Z;
  ROP_CTL_RED_BYPASS_EN : Z;
  ROP_CTL_ALPHA_BYPASS_EN : Z;
  WB_SIZE_WIDTH : Z;
  WB_SIZE_HEIGHT : Z
}.

(** [struct sunxi_g2d], reduced to what the hardware layer touches: the
    register window behind [base], and the MMIO stores issued so far (newest
    first), kept so that a theorem can count the writes of a function. *)
Record sunxi_g2d : Type := {
  base : reg -> Z;
  stores : list (reg * Z)
}.

(** ** Faults and the monad of register code *)

(** What C leaves undefined and the driver can run into: a read through a
    NULL pointer, a read of a local that was never assigned. *)
Inductive fault : Type := NullPointer | UninitRead.

Inductive result (A : Type) : Type :=
  | Ok (a : A)
  | Fault (e : fault).
Arguments Ok {A} a.
Arguments Fault {A} e.

Definition io (A : Type) : Type := sunxi_g2d -> result (A * sunxi_g2d).

Definition ret {A : Type} (a : A) : io A := fun g => Ok (a, g).

Definition bind {A B : Type} (c : io A) (k : A -> io B) : io B :=
  fun g => match c g with
           | Ok (a, g') => k a g'
           | Fault e => Fault e
           end.

Declare Scope io_scope.
Delimit Scope io_scope with io.
Notation "x <- c ;; k" := (bind c (fun x => k))
  (at level 100, c at next level, right associativity) : io_scope.
Notation "c ;; k" := (bind c (fun _ => k))
  (at level 100, right associativity) : io_scope.

(** Reading a local variable: [None] is a local no path has assigned. *)
Definition rd (v : option Z) : io Z :=
  fun g => match v with
           | Some x => Ok (x, g)
           | None => Fault UninitRead
           end.

(** [if (c) stmt;] *)
Definition when (c : bool) (stmt : io unit) : io unit :=
  if c then stmt else ret tt.

(** [readl] and [writel] on [g2d->base + reg]. *)
Definition readl (g : sunxi_g2d) (r : reg) : Z := u32 (base g r).

Definition writel (val : Z) (r : reg) (g : sunxi_g2d) : sunxi_g2d :=
  {| base := fun r' => if reg_beq r' r then u32 val else base g r';
     stores := (r, u32 val) :: stores g |}.

Definition g2d_read (r : reg) : io Z := fun g => Ok (readl g r, g).

Definition g2d_write (r : reg) (val : Z) : io unit :=
  fun g => Ok (tt, writel val r g).

Definition g2d_set_bits (r : reg) (bits : Z) : io unit :=
  fun g => Ok (tt, writel (Z.lor (readl g r) (u32 bits)) r g).

Definition g2d_clr_bits (r : reg) (bits : Z) : io unit :=
  fun g => Ok (tt, writel (Z.land (readl g r) (not32 bits)) r g).

(** ** sunxi_g2d_hw.c *)

(** [dma_addr_t addr[3]]: the base addresses of the three planes. *)
Definition plane_addrs : Type := (Z * Z * Z)%type.
Definition addr_0 (a : plane_addrs) : Z := fst (fst a).
Definition addr_1 (a : plane_addrs) : Z := snd (fst a).
Definition addr_2 (a : plane_addrs) : Z := snd a.

Section Hardware.

Context {regs_h : sunxi_g2d_regs}.

(** The Kconfig symbol that makes [dma_addr_t] 64 bits wide and compiles the
    high-address writes in; [uintptr_t] is taken to have the same width. *)
Variable CONFIG_ARCH_DMA_ADDR_T_64BIT : bool.

Local Open Scope io_scope.

(** Conversion to [uintptr_t] / [dma_addr_t]. *)
Definition uptr (x : Z) : Z :=
  if CONFIG_ARCH_DMA_ADDR_T_64BIT then u64 x else u32 x.

Definition g2d_hw_open : io unit :=
  g2d_set_bits G2D_SCLK_GATE (Z.lor G2D_SCLK_GATE_MIXER G2D_SCLK_GATE_ROT) ;;
  g2d_set_bits G2D_HCLK_GATE (Z.lor G2D_HCLK_GATE_MIXER G2D_HCLK_GATE_ROT) ;;
  g2d_set_bits G2D_AHB_RESET (Z.lor G2D_AHB_MIXER_RESET G2D_AHB_ROT_RESET).

Definition g2d_hw_close : io unit :=
  g2d_write G2D_SCLK_GATE 0 ;;
  g2d_write G2D_HCLK_GATE 0 ;;
  g2d_write G2D_AHB_RESET 0.

Definition g2d_hw_reset : io unit :=
  g2d_write G2D_AHB_RESET 0 ;;
  g2d_set_bits G2D_AHB_RESET (Z.lor G2D_AHB_MIXER_RESET G2D_AHB_ROT_RESET).

Definition g2d_mixer_irq_enable : io unit :=
  g2d_write G2D_MIXER_INT G2D_MIXER_INT_FINISH_IRQ_EN.

Definition g2d_mixer_irq_query : io Z :=
  tmp <- g2d_read G2D_MIXER_INT ;;
  if negb (Z.land tmp G2D_MIXER_INT_IRQ_PENDING =? 0) then
    g2d_clr_bits G2D_MIXER_INT
      (Z.lor G2D_MIXER_INT_IRQ_PENDING G2D_MIXER_INT_FINISH_IRQ_EN) ;;
    ret 1
  else
    ret 0.

Definition g2d_mixer_reset : io unit :=
  g2d_clr_bits G2D_AHB_RESET G2D_AHB_MIXER_RESET ;;
  g2d_set_bits G2D_AHB_RESET G2D_AHB_MIXER_RESET.

Definition g2d_rot_reset : io unit :=
  g2d_clr_bits G2D_AHB_RESET G2D_AHB_MIXER_RESET ;;
  g2d_set_bits G2D_AHB_RESET G2D_AHB_MIXER_RESET.

(** [g2d_fc_set]: the [switch] on [layer_no]; any other slot returns at once. *)
Definition g2d_fc_set (layer_no color_value : Z) : io unit :=
  if layer_no =? 0 then
    g2d_set_bits V0_ATTCTL V0_ATTCTL_FILLCOLOR_EN ;;
    g2d_write V0_FILLC color_value
  else if layer_no =? 1 then
    g2d_set_bits UI0_ATTR (BIT 4) ;;
    g2d_write UI0_FILLC color_value
  else if layer_no =? 2 then
    g2d_set_bits UI1_ATTR (BIT 4) ;;
    g2d_write UI1_FILLC color_value
  else if layer_no =? 3 then
    g2d_set_bits UI2_ATTR (BIT 4) ;;
    g2d_write UI2_FILLC color_value
  else
    ret tt.

Definition g2d_bldin_set (frm : g2d_frame) (pipe_no : Z) : io unit :=
  (if pipe_no =? 0 then
     g2d_set_bits BLD_EN_CTL BLD_PIPE0_EN ;;
     when (premult_alpha frm)
       (g2d_set_bits BLD_PREMUL_CTL BLD_PREMUL_CTL_PIPE0_ALPHA_MODE)
   else
     g2d_set_bits BLD_EN_CTL BLD_PIPE1_EN ;;
     when (premult_alpha frm)
       (g2d_set_bits BLD_PREMUL_CTL BLD_PREMUL_CTL_PIPE1_ALPHA_MODE)) ;;
  let rect_x := 0 in
  let rect_y := 0 in
  let rect_w := r_width (r (sel frm)) in
  let rect_h := r_height (r (sel frm)) in
  let tmp := Z.lor (u32 (Z.shiftl (u32 (rect_h - 1)) 16)) (u32 (rect_w - 1)) in
  g2d_write (if pipe_no =? 0 then BLD_CH_ISIZE0 else BLD_CH_ISIZE1) tmp ;;
  let tmp :=
    Z.lor (u32 (Z.shiftl (if rect_y <=? 0 then 0 else u32 (rect_y - 1)) 16))
          (if rect_x <=? 0 then 0 else u32 (rect_x - 1)) in
  g2d_write (if pipe_no =? 0 then BLD_CH_OFFSET0 else BLD_CH_OFFSET1) tmp.

(** The body of [g2d_bld_cs_set] once the hardware id is resolved. *)
Definition bld_cs_set_id (fmt_hw_id : Z) : io unit :=
  if fmt_hw_id <=? G2D_FORMAT_BGRA1010102 then
    g2d_clr_bits BLD_OUT_COLOR BLD_OUT_COLOR_ALPHA_MODE
  else if fmt_hw_id <=? G2D_FORMAT_YUV411_PLANAR then
    g2d_set_bits BLD_OUT_COLOR BLD_OUT_COLOR_ALPHA_MODE
  else
    ret tt.

Definition g2d_bld_cs_set (frm : g2d_frame) : io unit :=
  bld_cs_set_id (v4l2_fmt_to_hw_id (v4l2_pix_fmt frm)).

(** The locals [cw], [cx], [cy] of [g2d_wb_set] after its [if] cascade on
    the format family.  The 4:1:1 branch assigns [cw] and [cy] only. *)
Definition wb_chroma (fmt_hw_id : Z) (frm : g2d_frame)
  : option Z * option Z * option Z :=
  let pix := v4l2_pix_fmt frm in
  let rc := r (sel frm) in
  if (G2D_FORMAT_YUV422UVC_V1U1V0U0 <=? fmt_hw_id)
     && (fmt_hw_id <=? G2D_FORMAT_YUV422_PLANAR) then
    (Some (u32 (Z.shiftr (width pix) 1)),
     Some (u32 (Z.shiftr (left rc) 1)),
     Some (u32 (top rc)))
  else if (G2D_FORMAT_YUV420UVC_V1U1V0U0 <=? fmt_hw_id)
          && (fmt_hw_id <=? G2D_FORMAT_YUV420_PLANAR) then
    (Some (u32 (Z.shiftr (width pix) 1)),
     Some (u32 (Z.shiftr (left rc) 1)),
     Some (u32 (Z.shiftr (top rc) 1)))
  else if (G2D_FORMAT_YUV411UVC_V1U1V0U0 <=? fmt_hw_id)
          && (fmt_hw_id <=? G2D_FORMAT_YUV411_PLANAR) then
    (Some (u32 (Z.shiftr (left rc) 2)),
     None,
     Some (u32 (top rc)))
  else
    (Some 0, Some 0, Some 0).

(** The same locals in [g2d_vlayer_set]: the chroma width comes from the
    selection, and the 4:1:1 branch assigns [cx] and [cy] only. *)
Definition vlayer_chroma (fmt_hw_id : Z) (frm : g2d_frame)
  : option Z * option Z * option Z :=
  let rc := r (sel frm) in
  if (G2D_FORMAT_YUV422UVC_V1U1V0U0 <=? fmt_hw_id)
     && (fmt_hw_id <=? G2D_FORMAT_YUV422_PLANAR) then
    (Some (u32 (Z.shiftr (r_width rc) 1)),
     Some (u32 (Z.shiftr (left rc) 1)),
     Some (u32 (top rc)))
  else if (G2D_FORMAT_YUV420UVC_V1U1V0U0 <=? fmt_hw_id)
          && (fmt_hw_id <=? G2D_FORMAT_YUV420_PLANAR) then
    (Some (u32 (Z.shiftr (r_width rc) 1)),
     Some (u32 (Z.shiftr (left rc) 1)),
     Some (u32 (Z.shiftr (top rc) 1)))
  else if (G2D_FORMAT_YUV411UVC_V1U1V0U0 <=? fmt_hw_id)
          && (fmt_hw_id <=? G2D_FORMAT_YUV411_PLANAR) then
    (None,
     Some (u32 (Z.shiftr (left rc) 2)),
     Some (u32 (top rc)))
  else
    (Some 0, Some 0, Some 0).

Definition cw_of (c : option Z * option Z * option Z) := fst (fst c).
Definition cx_of (c : option Z * option Z * option Z) := snd (fst c).
Definition cy_of (c : option Z * option Z * option Z) := snd c.

(** The body of [g2d_wb_set] once the hardware id is resolved: format, size,
    premultiply bit, then the three pitches and the three plane addresses. *)
Definition wb_set_id (fmt_hw_id : Z) (frm : g2d_frame) (addr : plane_addrs)
  : io unit :=
  let pix := v4l2_pix_fmt frm in
  let rc := r (sel frm) in
  (* write-back pixel format *)
  g2d_write WB_ATT fmt_hw_id ;;
  (* write-back size *)
  let tmp :=
    FIELD_PREP WB_SIZE_WIDTH
      (if r_width rc =? 0 then 0 else u32 (r_width rc - 1)) in
  let tmp :=
    Z.lor tmp
      (FIELD_PREP WB_SIZE_HEIGHT
         (if r_height rc =? 0 then 0 else u32 (r_height rc - 1))) in
  g2d_write WB_SIZE tmp ;;
  (* blend output size *)
  g2d_write BLD_OUT_SIZE tmp ;;
  (if premult_alpha frm
   then g2d_set_bits BLD_OUT_COLOR BLD_OUT_COLOR_PREMUL_EN
   else g2d_clr_bits BLD_OUT_COLOR BLD_OUT_COLOR_PREMUL_EN) ;;
  let c := wb_chroma fmt_hw_id frm in
  let ycnt := ycnt_of (fmt2yuvcnt fmt_hw_id) in
  let ucnt := ucnt_of (fmt2yuvcnt fmt_hw_id) in
  let vcnt := vcnt_of (fmt2yuvcnt fmt_hw_id) in
  let pitch0 := ALIGN (u32 (ycnt * width pix)) (alignment frm) in
  g2d_write WB_PITCH0 pitch0 ;;
  cw <- rd (cw_of c) ;;
  let pitch1 := ALIGN (u32 (ucnt * cw)) (alignment frm) in
  g2d_write WB_PITCH1 pitch1 ;;
  let pitch2 := ALIGN (u32 (vcnt * cw)) (alignment frm) in
  g2d_write WB_PITCH2 pitch2 ;;
  let addr0 :=
    uptr (addr_0 addr + u32 (pitch0 * top rc) + u32 (ycnt * left rc)) in
  g2d_write WB_LADD0 (Z.land addr0 (GENMASK 31 0)) ;;
  when CONFIG_ARCH_DMA_ADDR_T_64BIT
    (g2d_write WB_HADD0 (Z.shiftr addr0 32)) ;;
  cy <- rd (cy_of c) ;;
  cx <- rd (cx_of c) ;;
  let addr1 := uptr (addr_1 addr + u32 (pitch1 * cy) + u32 (ucnt * cx)) in
  g2d_write WB_LADD1 (Z.land addr1 (GENMASK 31 0)) ;;
  when CONFIG_ARCH_DMA_ADDR_T_64BIT
    (g2d_write WB_HADD1 (Z.shiftr addr1 32)) ;;
  let addr2 := uptr (addr_2 addr + u32 (pitch2 * cy) + u32 (vcnt * cx)) in
  g2d_write WB_LADD2 (Z.land addr2 (GENMASK 31 0)) ;;
  when CONFIG_ARCH_DMA_ADDR_T_64BIT
    (g2d_write WB_HADD2 (Z.shiftr addr2 32)).

Definition g2d_wb_set (frm : g2d_frame) (addr : plane_addrs) : io unit :=
  wb_set_id (v4l2_fmt_to_hw_id (v4l2_pix_fmt frm)) frm addr.

(** The body of [g2d_vlayer_set] once the hardware id is resolved.  The
    statement that writes [V0_HADDR] is read without the stray character
    that follows it in the source. *)
Definition vlayer_set_id (fmt_hw_id : Z) (frm : g2d_frame)
  (addr : plane_addrs) (layer_alpha : Z) : io unit :=
  let pix := v4l2_pix_fmt frm in
  let rc := r (sel frm) in
  let tmp := FIELD_PREP V0_ATTCTL_GLBALPHA layer_alpha in
  let tmp :=
    if premult_alpha frm
    then Z.lor tmp (FIELD_PREP V0_ATTCTL_PREMUL_CTL 0x2) else tmp in
  let tmp := Z.lor tmp (FIELD_PREP V0_ATTCTL_FBFMT fmt_hw_id) in
  let tmp := Z.lor tmp (FIELD_PREP V0_ATTCTL_ALPHA_MODE (alpha_bld_mode frm)) in
  let tmp := Z.lor tmp (FIELD_PREP V0_ATTCTL_EN 1) in
  g2d_write V0_ATTCTL tmp ;;
  let tmp :=
    FIELD_PREP V0_MBSIZE_WIDTH
      (if r_width rc =? 0 then 0 else u32 (r_width rc - 1)) in
  let tmp :=
    Z.lor tmp
      (FIELD_PREP V0_MBSIZE_HEIGHT
         (if r_height rc =? 0 then 0 else u32 (r_height rc - 1))) in
  g2d_write V0_MBSIZE tmp ;;
  (* offset is set to 0, overlay size is set to layer size *)
  g2d_write V0_SIZE tmp ;;
  g2d_write V0_COOR 0 ;;
  let c := vlayer_chroma fmt_hw_id frm in
  let ycnt := ycnt_of (fmt2yuvcnt fmt_hw_id) in
  let ucnt := ucnt_of (fmt2yuvcnt fmt_hw_id) in
  let vcnt := vcnt_of (fmt2yuvcnt fmt_hw_id) in
  let pitch0 := ALIGN (u32 (ycnt * width pix)) (alignment frm) in
  g2d_write V0_PITCH0 pitch0 ;;
  cw <- rd (cw_of c) ;;
  let pitch1 := ALIGN (u32 (ucnt * cw)) (alignment frm) in
  g2d_write V0_PITCH1 pitch1 ;;
  let pitch2 := ALIGN (u32 (vcnt * cw)) (alignment frm) in
  g2d_write V0_PITCH2 pitch2 ;;
  (* address of the rectangle *)
  let addr0 :=
    uptr (addr_0 addr + u32 (pitch0 * top rc) + u32 (ycnt * left rc)) in
  g2d_write V0_LADDR0 (Z.land addr0 (GENMASK 31 0)) ;;
  cy <- rd (cy_of c) ;;
  cx <- rd (cx_of c) ;;
  let addr1 := uptr (addr_1 addr + u32 (pitch1 * cy) + u32 (ucnt * cx)) in
  g2d_write V0_LADDR1 (Z.land addr1 (GENMASK 31 0)) ;;
  let addr2 := uptr (addr_2 addr + u32 (pitch2 * cy) + u32 (vcnt * cx)) in
  g2d_write V0_LADDR2 (Z.land addr2 (GENMASK 31 0)) ;;
  when CONFIG_ARCH_DMA_ADDR_T_64BIT
    (let tmp := FIELD_PREP V0_HADDR0 (addr_0 addr) in
     let tmp := Z.lor tmp (FIELD_PREP V0_HADDR1 (addr_1 addr)) in
     let tmp := Z.lor tmp (FIELD_PREP V0_HADDR2 (addr_2 addr)) in
     g2d_write V0_HADDR tmp).

Definition g2d_vlayer_set (frm : g2d_frame) (addr : plane_addrs)
  (layer_alpha : Z) : io unit :=
  vlayer_set_id (v4l2_fmt_to_hw_id (v4l2_pix_fmt frm)) frm addr layer_alpha.

Definition g2d_rectfill (ctx : sunxi_g2d_ctx) (addr : plane_addrs) : io unit :=
  g2d_hw_reset ;;
  (* prepare the mixer video layer *)
  g2d_vlayer_set (dst ctx) addr (rectfill_color_alpha ctx) ;;
  (* set the fill color *)
  g2d_fc_set 0 (rectfill_color ctx) ;;
  g2d_bldin_set (dst ctx) 0 ;;
  g2d_bld_cs_set (dst ctx) ;;
  (* ROP sel ch0 pass *)
  g2d_write ROP_CTL
    (Z.lor (Z.lor (Z.lor ROP_CTL_BLUE_BYPASS_EN ROP_CTL_GREEN_BYPASS_EN)
              ROP_CTL_RED_BYPASS_EN) ROP_CTL_ALPHA_BYPASS_EN) ;;
  g2d_wb_set (dst ctx) addr ;;
  (* start the module *)
  g2d_mixer_irq_enable ;;
  g2d_set_bits G2D_MIXER_CTL G2D_MIXER_CTL_START.

End Hardware.

(** ** The V4L2 front end *)

(** Constants of <linux/videodev2.h> and <linux/v4l2-common.h>. *)
Definition V4L2_BUF_TYPE_VIDEO_CAPTURE : Z := 1.
Definition V4L2_BUF_TYPE_VIDEO_OUTPUT : Z := 2.
Definition V4L2_BUF_TYPE_VIDEO_OVERLAY : Z := 3.
Definition V4L2_BUF_TYPE_VBI_OUTPUT : Z := 5.
Definition V4L2_BUF_TYPE_SLICED_VBI_OUTPUT : Z := 7.
Definition V4L2_BUF_TYPE_VIDEO_OUTPUT_OVERLAY : Z := 8.
Definition V4L2_BUF_TYPE_VIDEO_OUTPUT_MPLANE : Z := 10.
Definition V4L2_BUF_TYPE_SDR_OUTPUT : Z := 12.
Definition V4L2_BUF_TYPE_META_OUTPUT : Z := 14.

Definition V4L2_SEL_TGT_CROP : Z := 0x0000.
Definition V4L2_SEL_TGT_CROP_DEFAULT : Z := 0x0001.
Definition V4L2_SEL_TGT_CROP_BOUNDS : Z := 0x0002.
Definition V4L2_SEL_TGT_COMPOSE : Z := 0x0100.
Definition V4L2_SEL_TGT_COMPOSE_DEFAULT : Z := 0x0101.
Definition V4L2_SEL_TGT_COMPOSE_BOUNDS : Z := 0x0102.

Definition V4L2_TYPE_IS_VALID (type : Z) : bool :=
  (V4L2_BUF_TYPE_VIDEO_CAPTURE <=? type) && (type <=? V4L2_BUF_TYPE_META_OUTPUT).

Definition V4L2_TYPE_IS_OUTPUT (type : Z) : bool :=
  (type =? V4L2_BUF_TYPE_VIDEO_OUTPUT)
  || (type =? V4L2_BUF_TYPE_VIDEO_OUTPUT_MPLANE)
  || (type =? V4L2_BUF_TYPE_VIDEO_OVERLAY)
  || (type =? V4L2_BUF_TYPE_VIDEO_OUTPUT_OVERLAY)
  || (type =? V4L2_BUF_TYPE_VBI_OUTPUT)
  || (type =? V4L2_BUF_TYPE_SLICED_VBI_OUTPUT)
  || (type =? V4L2_BUF_TYPE_SDR_OUTPUT)
  || (type =? V4L2_BUF_TYPE_META_OUTPUT).

Definition V4L2_TYPE_IS_CAPTURE (type : Z) : bool :=
  V4L2_TYPE_IS_VALID type && negb (V4L2_TYPE_IS_OUTPUT type).

Definition IRQ_NONE : Z := 0.
Definition IRQ_HANDLED : Z := 1.

Definition DEF_IMG_W : Z := 800.
Definition DEF_IMG_H : Z := 480.
Definition DEF_RECTFILL_COLOR : Z := 0xffff0100.
Definition DEF_RECTFILL_COLOR_ALPHA : Z := 0xff.

(** The two frames a context owns: what [get_frame] points into. *)
Inductive frame_id : Type := SRC | DST.

Definition frame_of (ctx : sunxi_g2d_ctx) (f : frame_id) : g2d_frame :=
  match f with SRC => src ctx | DST => dst ctx end.

(** [get_frame]: [inr e] stands for [ERR_PTR(e)]. *)
Definition get_frame (type : Z) : frame_id + Z :=
  if type =? V4L2_BUF_TYPE_VIDEO_OUTPUT then inl SRC
  else if type =? V4L2_BUF_TYPE_VIDEO_CAPTURE then inl DST
  else inr (- EINVAL).

(** The driver's control ids. *)
Definition V4L2_CID_USER_BASE : Z := 0x00980900.
Definition V4L2_CID_CUSTOM_BASE : Z := V4L2_CID_USER_BASE + 0x1000.
Definition V4L2_CID_SUNXI_G2D_OP_SELECT : Z := V4L2_CID_CUSTOM_BASE + 1.
Definition V4L2_CID_SUNXI_G2D_IN_ALPHA_MODE : Z := V4L2_CID_CUSTOM_BASE + 2.
Definition V4L2_CID_SUNXI_G2D_IN_ALIGNMENT : Z := V4L2_CID_CUSTOM_BASE + 3.
Definition V4L2_CID_SUNXI_G2D_OUT_ALPHA_MODE : Z := V4L2_CID_CUSTOM_BASE + 4.
Definition V4L2_CID_SUNXI_G2D_OUT_ALIGNMENT : Z := V4L2_CID_CUSTOM_BASE + 5.
Definition V4L2_CID_SUNXI_G2D_RECTFILL_COLOR : Z := V4L2_CID_CUSTOM_BASE + 6.
Definition V4L2_CID_SUNXI_G2D_RECTFILL_COLOR_ALPHA : Z :=
  V4L2_CID_CUSTOM_BASE + 7.

(** [g2d_try_ctrl] on [ctrl->id] and [ctrl->val]: an alignment that is not
    a power of two is refused. *)
Definition g2d_try_ctrl (id val : Z) : Z :=
  if (id =? V4L2_CID_SUNXI_G2D_IN_ALIGNMENT)
     || (id =? V4L2_CID_SUNXI_G2D_OUT_ALIGNMENT)
  then if negb (Z.land val (val - 1) =? 0) then - EINVAL else 0
  else 0.

(** [g2d_try_fmt] on [f->fmt.pix]: the return value and the adjusted format,
    or the fault of reading [fmt->depth] through the NULL [find_fmt]
    returned. *)
Definition g2d_try_fmt (pix : v4l2_pix_format)
  : result (Z * v4l2_pix_format) :=
  let width0 := width pix in
  let height0 := height pix in
  let fmt := find_fmt pix in
  let pixelformat1 :=
    match fmt with
    | None => fourcc (nth 0 g2d_supported_fmts (Build_g2d_fmt 0 0 0))
    | Some _ => pixelformat pix
    end in
  let width1 := clamp width0 G2D_MIN_WIDTH G2D_MAX_WIDTH in
  let height1 := clamp height0 G2D_MIN_HEIGHT G2D_MAX_HEIGHT in
  match fmt with
  | None => Fault NullPointer
  | Some fmt =>
      let bytesperline1 := Z.shiftr (u32 (width1 * depth fmt)) 3 in
      let sizeimage1 := u32 (height1 * bytesperline1) in
      Ok (0, {| width := width1; height := height1;
                pixelformat := pixelformat1;
                bytesperline := bytesperline1;
                sizeimage := sizeimage1;
                flags := flags pix |})
  end.

(** [g2d_g_selection]: the return value and the rectangle reported. *)
Definition g2d_g_selection (ctx : sunxi_g2d_ctx) (s : v4l2_selection)
  : Z * v4l2_rect :=
  match get_frame (sel_type s) with
  | inr e => (e, r s)
  | inl f =>
      let frm := frame_of ctx f in
      let tgt := target s in
      let is_crop := (tgt =? V4L2_SEL_TGT_CROP)
                     || (tgt =? V4L2_SEL_TGT_CROP_DEFAULT)
                     || (tgt =? V4L2_SEL_TGT_CROP_BOUNDS) in
      let is_compose := (tgt =? V4L2_SEL_TGT_COMPOSE)
                        || (tgt =? V4L2_SEL_TGT_COMPOSE_DEFAULT)
                        || (tgt =? V4L2_SEL_TGT_COMPOSE_BOUNDS) in
      if is_crop && negb (V4L2_TYPE_IS_OUTPUT (sel_type s)) then (- EINVAL, r s)
      else if is_compose && negb (V4L2_TYPE_IS_CAPTURE (sel_type s))
      then (- EINVAL, r s)
      else if negb (is_crop || is_compose) then (- EINVAL, r s)
      else if (tgt =? V4L2_SEL_TGT_CROP) || (tgt =? V4L2_SEL_TGT_COMPOSE) then
        (0, {| left := left (r (sel frm)); top := top (r (sel frm));
               r_width := r_width (r (sel frm));
               r_height := r_height (r (sel frm)) |})
      else
        (0, {| left := 0; top := 0;
               r_width := width (v4l2_pix_fmt frm);
               r_height := height (v4l2_pix_fmt frm) |})
  end.

(** [g2d_try_selection].  [left] and [top] are signed; once they are known
    to be non-negative each comparison with the frame size is made at
    [unsigned int], where [width - 1] and [left + width] wrap. *)
Definition g2d_try_selection (ctx : sunxi_g2d_ctx) (s : v4l2_selection) : Z :=
  match get_frame (sel_type s) with
  | inr e => e
  | inl f =>
      let frm := frame_of ctx f in
      let pix := v4l2_pix_fmt frm in
      let rc := r s in
      if (if V4L2_TYPE_IS_CAPTURE (sel_type s)
          then negb (target s =? V4L2_SEL_TGT_COMPOSE)
          else if V4L2_TYPE_IS_OUTPUT (sel_type s)
               then negb (target s =? V4L2_SEL_TGT_CROP)
               else false)
      then - EINVAL
      else if (top rc <? 0) || (left rc <? 0) then - EINVAL
      else if (u32 (left rc) >? u32 (width pix - 1))
              || (u32 (top rc) >? u32 (height pix - 1)) then - EINVAL
      else if u32 (left rc + r_width rc) >? u32 (width pix - 1) then - EINVAL
      else if u32 (top rc + r_height rc) >? u32 (height pix - 1) then - EINVAL
      else 0
  end.

(** Storing a rectangle into [frm->sel.r]. *)
Definition set_sel_r (frm : g2d_frame) (rc : v4l2_rect) : g2d_frame :=
  {| v4l2_pix_fmt := v4l2_pix_fmt frm;
     premult_alpha := premult_alpha frm;
     alpha_bld_mode := alpha_bld_mode frm;
     alignment := alignment frm;
     sel := {| sel_type := sel_type (sel frm); target := target (sel frm);
               r := rc |} |}.

Definition set_frame (ctx : sunxi_g2d_ctx) (f : frame_id) (frm : g2d_frame)
  : sunxi_g2d_ctx :=
  match f with
  | SRC => {| src := frm; dst := dst ctx;
              rectfill_color := rectfill_color ctx;
              rectfill_color_alpha := rectfill_color_alpha ctx;
              chosen_g2d_op := chosen_g2d_op ctx |}
  | DST => {| src := src ctx; dst := frm;
              rectfill_color := rectfill_color ctx;
              rectfill_color_alpha := rectfill_color_alpha ctx;
              chosen_g2d_op := chosen_g2d_op ctx |}
  end.

(** [g2d_s_selection]: the return value and the context afterwards. *)
Definition g2d_s_selection (ctx : sunxi_g2d_ctx) (s : v4l2_selection)
  : Z * sunxi_g2d_ctx :=
  let ret := g2d_try_selection ctx s in
  if negb (ret =? 0) then (ret, ctx)
  else
    match get_frame (sel_type s) with
    | inr e => (e, ctx)
    | inl f =>
        (0, set_frame ctx f
              (set_sel_r (frame_of ctx f)
                 {| left := left (r s); top := top (r s);
                    r_width := r_width (r s); r_height := r_height (r s) |}))
    end.

(** The context [g2d_open] sets up: both frames 800x480 XBGR32, alignment 1,
    and the capture selection the driver preloads for the rectangle fill. *)
Definition g2d_open_src : g2d_frame :=
  {| v4l2_pix_fmt := {| width := DEF_IMG_W; height := DEF_IMG_H;
                        pixelformat := V4L2_PIX_FMT_XBGR32;
                        bytesperline := 0; sizeimage := 0; flags := 0 |};
     premult_alpha := true;
     alpha_bld_mode := 0;
     alignment := 1;
     sel := {| sel_type := V4L2_BUF_TYPE_VIDEO_OUTPUT; target := 0;
               r := {| left := 0; top := 0; r_width := 0; r_height := 0 |} |} |}.

Definition g2d_open_ctx : sunxi_g2d_ctx :=
  {| src := {| v4l2_pix_fmt := v4l2_pix_fmt g2d_open_src;
               premult_alpha := premult_alpha g2d_open_src;
               alpha_bld_mode := alpha_bld_mode g2d_open_src;
               alignment := alignment g2d_open_src;
               sel := {| sel_type := V4L2_BUF_TYPE_VIDEO_CAPTURE;
                         target := 0; r := r (sel g2d_open_src) |} |};
     dst := set_sel_r g2d_open_src
              {| left := 200; top := 120; r_width := 400; r_height := 240 |};
     rectfill_color := DEF_RECTFILL_COLOR;
     rectfill_color_alpha := DEF_RECTFILL_COLOR_ALPHA;
     chosen_g2d_op := G2D_RECTFILL |}.

Section Interrupt.

Context {regs_h : sunxi_g2d_regs}.

Local Open Scope io_scope.

(** [g2d_irq]: [curr] is what [v4l2_m2m_get_curr_priv] returns (the context
    of the running job, or NULL).  The buffer hand-back to the mem2mem
    framework after the mixer reset is outside the register file and is not
    modelled. *)
Definition g2d_irq (curr : option sunxi_g2d_ctx) : io Z :=
  match curr with
  | None => ret IRQ_NONE
  | Some _ =>
      q <- g2d_mixer_irq_query ;;
      if q =? 0 then ret IRQ_NONE
      else
        g2d_mixer_reset ;;
        ret IRQ_HANDLED
  end.

End Interrupt.

(** ** More of the V4L2 front end: controls, formats, buffers, streaming *)

Definition EBUSY : Z := 16.

(** [V4L2_PIX_FMT_FLAG_PREMUL_ALPHA] of <linux/videodev2.h>. *)
Definition V4L2_PIX_FMT_FLAG_PREMUL_ALPHA : Z := 0x00000001.

(** What the driver reads of a [struct v4l2_ctrl]: its id, its new value
    [val] and, for the array controls, the first element of [p_new]. *)
Record v4l2_ctrl : Type := {
  ctrl_id : Z;
  ctrl_val : Z;     (* s32 *)
  p_new_u32 : Z;    (* ctrl->p_new.p_u32[0] *)
  p_new_u8 : Z      (* ctrl->p_new.p_u8[0] *)
}.

Definition set_alpha_bld_mode (frm : g2d_frame) (v : Z) : g2d_frame :=
  {| v4l2_pix_fmt := v4l2_pix_fmt frm;
     premult_alpha := premult_alpha frm;
     alpha_bld_mode := v;
     alignment := alignment frm;
     sel := sel frm |}.

Definition set_alignment (frm : g2d_frame) (v : Z) : g2d_frame :=
  {| v4l2_pix_fmt := v4l2_pix_fmt frm;
     premult_alpha := premult_alpha frm;
     alpha_bld_mode := alpha_bld_mode frm;
     alignment := v;
     sel := sel frm |}.

(** [frm->v4l2_pix_fmt = pix; frm->premult_alpha = premul;] *)
Definition set_pix_fmt (frm : g2d_frame) (pix : v4l2_pix_format)
  (premul : bool) : g2d_frame :=
  {| v4l2_pix_fmt := pix;
     premult_alpha := premul;
     alpha_bld_mode := alpha_bld_mode frm;
     alignment := alignment frm;
     sel := sel frm |}.

(** The value an [int] takes when stored in [enum g2d_op].  The two
    [switch] statements on the operation have a [case] for [G2D_RECTFILL]
    only, so every other value behaves as [G2D_BITBLT] does. *)
Definition g2d_op_of (val : Z) : g2d_op :=
  if val =? 0 then G2D_RECTFILL else G2D_BITBLT.

(** [g2d_s_ctrl]: the return value and the context afterwards. *)
Definition g2d_s_ctrl (ctx : sunxi_g2d_ctx) (ctrl : v4l2_ctrl)
  : Z * sunxi_g2d_ctx :=
  let id := ctrl_id ctrl in
  if id =? V4L2_CID_SUNXI_G2D_OP_SELECT then
    (0, {| src := src ctx; dst := dst ctx;
           rectfill_color := rectfill_color ctx;
           rectfill_color_alpha := rectfill_color_alpha ctx;
           chosen_g2d_op := g2d_op_of (ctrl_val ctrl) |})
  else if id =? V4L2_CID_SUNXI_G2D_IN_ALPHA_MODE then
    (0, set_frame ctx SRC (set_alpha_bld_mode (src ctx) (ctrl_val ctrl)))
  else if id =? V4L2_CID_SUNXI_G2D_OUT_ALPHA_MODE then
    (0, set_frame ctx DST (set_alpha_bld_mode (dst ctx) (ctrl_val ctrl)))
  else if id =? V4L2_CID_SUNXI_G2D_IN_ALIGNMENT then
    (0, set_frame ctx SRC (set_alignment (src ctx) (u32 (ctrl_val ctrl))))
  else if id =? V4L2_CID_SUNXI_G2D_OUT_ALIGNMENT then
    (0, set_frame ctx DST (set_alignment (dst ctx) (u32 (ctrl_val ctrl))))
  else if id =? V4L2_CID_SUNXI_G2D_RECTFILL_COLOR then
    (0, {| src := src ctx; dst := dst ctx;
           rectfill_color := p_new_u32 ctrl;
           rectfill_color_alpha := rectfill_color_alpha ctx;
           chosen_g2d_op := chosen_g2d_op ctx |})
  else if id =? V4L2_CID_SUNXI_G2D_RECTFILL_COLOR_ALPHA then
    (0, {| src := src ctx; dst := dst ctx;
           rectfill_color := rectfill_color ctx;
           rectfill_color_alpha := p_new_u8 ctrl;
           chosen_g2d_op := chosen_g2d_op ctx |})
  else
    (- EINVAL, ctx).

(** [NUM_SUPPORTED_FMTS]. *)
Definition NUM_SUPPORTED_FMTS : Z := Z.of_nat (length g2d_supported_fmts).

(** [g2d_enum_fmt] on [f->index]: the return value and [f->pixelformat]
    afterwards ([pixelformat0] is what the field held before). *)
Definition g2d_enum_fmt (index pixelformat0 : Z) : Z * Z :=
  if index <? NUM_SUPPORTED_FMTS then
    (0, fourcc (nth (Z.to_nat index) g2d_supported_fmts (Build_g2d_fmt 0 0 0)))
  else
    (- EINVAL, pixelformat0).

(** [g2d_g_fmt]: the return value and [f->fmt.pix] afterwards. *)
Definition g2d_g_fmt (ctx : sunxi_g2d_ctx) (type : Z) (pix0 : v4l2_pix_format)
  : Z * v4l2_pix_format :=
  match get_frame type with
  | inr e => (e, pix0)
  | inl f => (0, v4l2_pix_fmt (frame_of ctx f))
  end.

(** [g2d_s_fmt]: [busy] is what [vb2_is_busy] answers for the queue of
    [type].  The result is the return value, [f->fmt.pix] and the context
    afterwards, or the fault of [g2d_try_fmt]. *)
Definition g2d_s_fmt (ctx : sunxi_g2d_ctx) (type : Z) (pix : v4l2_pix_format)
  (busy : bool) : result (Z * v4l2_pix_format * sunxi_g2d_ctx) :=
  match g2d_try_fmt pix with
  | Fault e => Fault e
  | Ok (ret, pix1) =>
      if negb (ret =? 0) then Ok (ret, pix1, ctx)
      else
        match get_frame type with
        | inr e => Ok (e, pix1, ctx)
        | inl f =>
            if busy then Ok (- EBUSY, pix1, ctx)
            else
              Ok (0, pix1,
                  set_frame ctx f
                    (set_pix_fmt (frame_of ctx f) pix1
                       (negb (Z.land (flags pix1)
                                V4L2_PIX_FMT_FLAG_PREMUL_ALPHA =? 0))))
        end
  end.

(** [g2d_queue_setup] on the queue of [type]: the return value, [*nplanes]
    and [sizes[0]] afterwards. *)
Definition g2d_queue_setup (ctx : sunxi_g2d_ctx) (type nplanes sizes0 : Z)
  : Z * Z * Z :=
  match get_frame type with
  | inr e => (e, nplanes, sizes0)
  | inl f =>
      let frm := frame_of ctx f in
      if negb (nplanes =? 0) then
        if sizes0 <? sizeimage (v4l2_pix_fmt frm)
        then (- EINVAL, nplanes, sizes0)
        else (0, nplanes, sizes0)
      else (0, 1, sizeimage (v4l2_pix_fmt frm))
  end.

(** [g2d_buf_prepare] on a buffer of the queue of [type] whose plane 0 holds
    [plane_size] bytes: the return value and the payload set, if any. *)
Definition g2d_buf_prepare (ctx : sunxi_g2d_ctx) (type plane_size : Z)
  : Z * option Z :=
  match get_frame type with
  | inr e => (e, None)
  | inl f =>
      let frm := frame_of ctx f in
      if plane_size <? sizeimage (v4l2_pix_fmt frm) then (- EINVAL, None)
      else (0, Some (sizeimage (v4l2_pix_fmt frm)))
  end.

(** [g2d_job_ready]: [num_dst_bufs_ready] is what
    [v4l2_m2m_num_dst_bufs_ready] answers. *)
Definition g2d_job_ready (ctx : sunxi_g2d_ctx) (num_dst_bufs_ready : Z) : Z :=
  match chosen_g2d_op ctx with
  | G2D_RECTFILL => if num_dst_bufs_ready <? 1 then 0 else 1
  | _ => 1
  end.

(** ** Buffers of a mem2mem context *)

Inductive vb2_buffer_state : Type :=
  | VB2_BUF_STATE_QUEUED
  | VB2_BUF_STATE_ERROR
  | VB2_BUF_STATE_DONE.

(** What the driver's queue callbacks see of a [struct v4l2_m2m_ctx]: the
    buffers ready on the output (source) and capture (destination) queues,
    oldest first, and the buffers handed back with [v4l2_m2m_buf_done],
    newest first.  A buffer is named by a number. *)
Record v4l2_m2m_ctx : Type := {
  out_rdy : list Z;
  cap_rdy : list Z;
  handed_back : list (Z * vb2_buffer_state)
}.

(** [v4l2_m2m_src_buf_remove] and [v4l2_m2m_dst_buf_remove]: the oldest
    ready buffer, taken off its queue, or NULL. *)
Definition v4l2_m2m_src_buf_remove (m : v4l2_m2m_ctx)
  : option Z * v4l2_m2m_ctx :=
  match out_rdy m with
  | [] => (None, m)
  | b :: rest =>
      (Some b, {| out_rdy := rest; cap_rdy := cap_rdy m;
                  handed_back := handed_back m |})
  end.

Definition v4l2_m2m_dst_buf_remove (m : v4l2_m2m_ctx)
  : option Z * v4l2_m2m_ctx :=
  match cap_rdy m with
  | [] => (None, m)
  | b :: rest =>
      (Some b, {| out_rdy := out_rdy m; cap_rdy := rest;
                  handed_back := handed_back m |})
  end.

Definition v4l2_m2m_buf_done (b : Z) (state : vb2_buffer_state)
  (m : v4l2_m2m_ctx) : v4l2_m2m_ctx :=
  {| out_rdy := out_rdy m; cap_rdy := cap_rdy m;
     handed_back := (b, state) :: handed_back m |}.

(** [g2d_queue_cleanup]: the [do ... while (vbuf)] loop, run for at most
    [fuel] iterations; [None] when the fuel runs out before the loop ends. *)
Fixpoint g2d_queue_cleanup (fuel : nat) (type : Z) (state : vb2_buffer_state)
  (m : v4l2_m2m_ctx) : option v4l2_m2m_ctx :=
  match fuel with
  | O => None
  | S fuel' =>
      let '(vbuf, m1) :=
        if V4L2_TYPE_IS_OUTPUT type
        then v4l2_m2m_src_buf_remove m
        else v4l2_m2m_dst_buf_remove m in
      match vbuf with
      | Some b => g2d_queue_cleanup fuel' type state (v4l2_m2m_buf_done b state m1)
      | None => Some m1
      end
  end.

(** [g2d_start_streaming]: [resume_ret] is what
    [pm_runtime_resume_and_get] returns when it is called. *)
Definition g2d_start_streaming (fuel : nat) (type resume_ret : Z)
  (m : v4l2_m2m_ctx) : option (Z * v4l2_m2m_ctx) :=
  if V4L2_TYPE_IS_OUTPUT type then
    if resume_ret <? 0 then
      match g2d_queue_cleanup fuel type VB2_BUF_STATE_QUEUED m with
      | Some m' => Some (resume_ret, m')
      | None => None
      end
    else Some (resume_ret, m)
  else Some (0, m).

(** [g2d_stop_streaming], its [pm_runtime_put] left out. *)
Definition g2d_stop_streaming (fuel : nat) (type : Z) (m : v4l2_m2m_ctx)
  : option v4l2_m2m_ctx :=
  g2d_queue_cleanup fuel type VB2_BUF_STATE_ERROR m.

(** ** Runtime power management *)

Inductive clk : Type := bus_clk | mod_clk | ram_clk.

(** The clock and reset framework calls of the two runtime PM callbacks. *)
Inductive pm_call : Type :=
  | reset_control_deassert
  | reset_control_assert
  | clk_set_rate_exclusive (c : clk) (rate : Z)
  | clk_rate_exclusive_put (c : clk)
  | clk_prepare_enable (c : clk)
  | clk_disable_unprepare (c : clk).

(** What the calls that can fail return in one run of
    [sunxi_g2d_runtime_resume]. *)
Record resume_returns : Type := {
  ret_deassert : Z;
  ret_set_rate : Z;
  ret_bus : Z;
  ret_mod : Z;
  ret_ram : Z
}.

(** The device and the framework calls made so far with their return
    values, newest first (0 for the calls that return nothing). *)
Record platform : Type := {
  g2d_dev : sunxi_g2d;
  pm_calls : list (pm_call * Z)
}.

Definition pm_do (c : pm_call) (ret : Z) (p : platform) : platform :=
  {| g2d_dev := g2d_dev p; pm_calls := (c, ret) :: pm_calls p |}.

Section RuntimePM.

Context {regs_h : sunxi_g2d_regs}.

(** The [goto] labels of [sunxi_g2d_runtime_resume], innermost last. *)
Definition err_reset_assert (ret : Z) (p : platform) : Z * platform :=
  (ret, pm_do reset_control_assert 0 p).

Definition err_exclusive_rate (ret : Z) (p : platform) : Z * platform :=
  err_reset_assert ret (pm_do (clk_rate_exclusive_put mod_clk) 0 p).

Definition err_put_bus_clk (ret : Z) (p : platform) : Z * platform :=
  err_exclusive_rate ret (pm_do (clk_disable_unprepare bus_clk) 0 p).

Definition err_put_mod_clk (ret : Z) (p : platform) : Z * platform :=
  err_put_bus_clk ret (pm_do (clk_disable_unprepare mod_clk) 0 p).

Definition sunxi_g2d_runtime_resume (o : resume_returns) (p : platform)
  : result (Z * platform) :=
  let p := pm_do reset_control_deassert (ret_deassert o) p in
  if negb (ret_deassert o =? 0) then Ok (ret_deassert o, p)
  else
    let p := pm_do (clk_set_rate_exclusive mod_clk 300000000)
               (ret_set_rate o) p in
    if negb (ret_set_rate o =? 0) then Ok (err_reset_assert (ret_set_rate o) p)
    else
      let p := pm_do (clk_prepare_enable bus_clk) (ret_bus o) p in
      if negb (ret_bus o =? 0) then Ok (err_exclusive_rate (ret_bus o) p)
      else
        let p := pm_do (clk_prepare_enable mod_clk) (ret_mod o) p in
        if negb (ret_mod o =? 0) then Ok (err_put_bus_clk (ret_mod o) p)
        else
          let p := pm_do (clk_prepare_enable ram_clk) (ret_ram o) p in
          if negb (ret_ram o =? 0) then Ok (err_put_mod_clk (ret_ram o) p)
          else
            match g2d_hw_open (g2d_dev p) with
            | Fault e => Fault e
            | Ok (_, g') =>
                Ok (0, {| g2d_dev := g'; pm_calls := pm_calls p |})
            end.

Definition sunxi_g2d_runtime_suspend (p : platform) : result (Z * platform) :=
  match g2d_hw_close (g2d_dev p) with
  | Fault e => Fault e
  | Ok (_, g') =>
      let p := {| g2d_dev := g'; pm_calls := pm_calls p |} in
      let p := pm_do (clk_disable_unprepare ram_clk) 0 p in
      let p := pm_do (clk_disable_unprepare mod_clk) 0 p in
      let p := pm_do (clk_disable_unprepare bus_clk) 0 p in
      let p := pm_do (clk_rate_exclusive_put mod_clk) 0 p in
      let p := pm_do reset_control_assert 0 p in
      Ok (0, p)
  end.

End RuntimePM.

Section DeviceRun.

Context {regs_h : sunxi_g2d_regs}.
Variable CONFIG_ARCH_DMA_ADDR_T_64BIT : bool.

(** [g2d_device_run] on the register file: [dst_addr] is the DMA address of
    plane 0 of the next destination buffer.  The copy of the buffer
    metadata, which touches no register, is left out. *)
Definition g2d_device_run (ctx : sunxi_g2d_ctx) (src_addr dst_addr : Z)
  : io unit :=
  match chosen_g2d_op ctx with
  | G2D_RECTFILL =>
      g2d_rectfill CONFIG_ARCH_DMA_ADDR_T_64BIT ctx (dst_addr, 0, 0)
  | _ => ret tt
  end.

End DeviceRun.

(** ** Frames and requests the statements are about *)

(** The rectangle that covers a frame of [W] by [H] pixels. *)
Definition full_frame (W H : Z) : v4l2_rect :=
  {| left := 0; top := 0; r_width := W; r_height := H |}.

(** The request that sets the selection of frame [f] to [rc]: a crop on the
    output queue for the source frame, a compose on the capture queue for
    the destination frame. *)
Definition selection_request (f : frame_id) (rc : v4l2_rect)
  : v4l2_selection :=
  match f with
  | SRC => {| sel_type := V4L2_BUF_TYPE_VIDEO_OUTPUT;
              target := V4L2_SEL_TGT_CROP; r := rc |}
  | DST => {| sel_type := V4L2_BUF_TYPE_VIDEO_CAPTURE;
              target := V4L2_SEL_TGT_COMPOSE; r := rc |}
  end.

(** The ids of the semi-planar and planar YUV families, for which the two
    geometry computations branch on the format. *)
Definition planar_yuv_id (fmt_hw_id : Z) : bool :=
  (G2D_FORMAT_YUV422UVC_V1U1V0U0 <=? fmt_hw_id)
  && (fmt_hw_id <=? G2D_FORMAT_YUV411_PLANAR).

(** The frame of the 4:2:0 scenario: 640 by 480, selection
    (16, 16, 320, 240), alignment 8. *)
Definition yuv420_frame : g2d_frame :=
  {| v4l2_pix_fmt := {| width := 640; height := 480;
                        pixelformat := V4L2_PIX_FMT_YUV420;
                        bytesperline := 0; sizeimage := 0; flags := 0 |};
     premult_alpha := false;
     alpha_bld_mode := 0;
     alignment := 8;
     sel := {| sel_type := V4L2_BUF_TYPE_VIDEO_CAPTURE;
               target := V4L2_SEL_TGT_COMPOSE;
               r := {| left := 16; top := 16;
                       r_width := 320; r_height := 240 |} |} |}.


(** [frm] with an empty selection at [(l, t)]. *)
Definition empty_selection (frm : g2d_frame) (l t : Z) : g2d_frame :=
  set_sel_r frm {| left := l; top := t; r_width := 0; r_height := 0 |}.

(** The buffer type of the queue a frame belongs to. *)
Definition queue_type (f : frame_id) : Z :=
  match f with
  | SRC => V4L2_BUF_TYPE_VIDEO_OUTPUT
  | DST => V4L2_BUF_TYPE_VIDEO_CAPTURE
  end.

Definition other_frame (f : frame_id) : frame_id :=
  match f with SRC => DST | DST => SRC end.

(** A format request for the catalogue's pixel format. *)
Definition xbgr32_request (w h fl : Z) : v4l2_pix_format :=
  {| width := w; height := h; pixelformat := V4L2_PIX_FMT_XBGR32;
     bytesperline := 0; sizeimage := 0; flags := fl |}.

(** A layout of the masks for running the model on examples: one bit per
    flag, 13-bit size fields.  The header that fixes the real values is not
    among the sources; every theorem below holds for any layout. *)
Definition example_regs : sunxi_g2d_regs :=
  {| G2D_SCLK_GATE_MIXER := BIT 0;
     G2D_SCLK_GATE_ROT := BIT 1;
     G2D_HCLK_GATE_MIXER := BIT 0;
     G2D_HCLK_GATE_ROT := BIT 1;
     G2D_AHB_MIXER_RESET := BIT 0;
     G2D_AHB_ROT_RESET := BIT 1;
     G2D_MIXER_CTL_START := BIT 31;
     G2D_MIXER_INT_FINISH_IRQ_EN := BIT 4;
     G2D_MIXER_INT_IRQ_PENDING := BIT 0;
     V0_ATTCTL_FILLCOLOR_EN := BIT 4;
     V0_ATTCTL_GLBALPHA := GENMASK 31 24;
     V0_ATTCTL_PREMUL_CTL := GENMASK 17 16;
     V0_ATTCTL_FBFMT := GENMASK 13 8;
     V0_ATTCTL_ALPHA_MODE := GENMASK 2 1;
     V0_ATTCTL_EN := BIT 0;
     V0_MBSIZE_WIDTH := GENMASK 12 0;
     V0_MBSIZE_HEIGHT := GENMASK 28 16;
     V0_HADDR0 := GENMASK 7 0;
     V0_HADDR1 := GENMASK 15 8;
     V0_HADDR2 := GENMASK 23 16;
     BLD_PIPE0_EN := BIT 8;
     BLD_PIPE1_EN := BIT 9;
     BLD_PREMUL_CTL_PIPE0_ALPHA_MODE := BIT 0;
     BLD_PREMUL_CTL_PIPE1_ALPHA_MODE := BIT 1;
     BLD_OUT_COLOR_ALPHA_MODE := BIT 1;
     BLD_OUT_COLOR_PREMUL_EN := BIT 0;
     ROP_CTL_BLUE_BYPASS_EN := BIT 4;
     ROP_CTL_GREEN_BYPASS_EN := BIT 5;
     ROP_CTL_RED_BYPASS_EN := BIT 6;
     ROP_CTL_ALPHA_BYPASS_EN := BIT 7;
     WB_SIZE_WIDTH := GENMASK 12 0;
     WB_SIZE_HEIGHT := GENMASK 28 16 |}.

(** A device whose registers all read 0, with no store made yet. *)
Definition blank_device : sunxi_g2d := {| base := fun _ => 0; stores := [] |}.


(** The resources the runtime PM callbacks take and give back, and a check
    of a sequence of framework calls (oldest first): a call that succeeds in
    taking a resource pushes it, a call that gives one back must find it on
    top.  The result is what is still held, or [None] when a release does
    not match. *)
Inductive pm_resource : Type :=
  | ResReset
  | ResRate (c : clk)
  | ResClk (c : clk).

Scheme Equality for clk.
Scheme Equality for pm_resource.

Definition acquires (c : pm_call) : option pm_resource :=
  match c with
  | reset_control_deassert => Some ResReset
  | clk_set_rate_exclusive c _ => Some (ResRate c)
  | clk_prepare_enable c => Some (ResClk c)
  | _ => None
  end.

Definition releases (c : pm_call) : option pm_resource :=
  match c with
  | reset_control_assert => Some ResReset
  | clk_rate_exclusive_put c => Some (ResRate c)
  | clk_disable_unprepare c => Some (ResClk c)
  | _ => None
  end.

Fixpoint held_after (calls : list (pm_call * Z)) (stack : list pm_resource)
  : option (list pm_resource) :=
  match calls with
  | [] => Some stack
  | (c, ret) :: rest =>
      match acquires c, releases c with
      | Some res, _ =>
          held_after rest (if ret =? 0 then res :: stack else stack)
      | None, Some res =>
          match stack with
          | top :: stack' =>
              if pm_resource_beq res top then held_after rest stack'
              else None
          | [] => None
          end
      | None, None => held_after rest stack
      end
  end.

(** A run of [sunxi_g2d_runtime_resume] in which every call succeeds. *)
Definition resume_all_ok : resume_returns :=
  {| ret_deassert := 0; ret_set_rate := 0; ret_bus := 0; ret_mod := 0;
     ret_ram := 0 |}.

(** The operation control holding [val]. *)
Definition op_select_ctrl (val : Z) : v4l2_ctrl :=
  {| ctrl_id := V4L2_CID_SUNXI_G2D_OP_SELECT; ctrl_val := val;
     p_new_u32 := 0; p_new_u8 := 0 |}.

(** The context of [g2d_open] once a capture format of 800 by 480 has been
    set on it. *)
Definition capture_800x480_ctx : sunxi_g2d_ctx :=
  set_frame g2d_open_ctx DST
    (set_pix_fmt (dst g2d_open_ctx)
       {| width := 800; height := 480; pixelformat := V4L2_PIX_FMT_XBGR32;
          bytesperline := 3200; sizeimage := 1536000; flags := 0 |}
       false).

(** * Properties *)

(** ** Machine arithmetic *)

Lemma u32_range (x : Z) : 0 <= u32 x < 2 ^ 32.
Proof. unfold u32. apply Z.mod_pos_bound. lia. Qed.

Lemma u32_small (x : Z) : 0 <= x < 2 ^ 32 -> u32 x = x.
Proof. intros Hx. unfold u32. apply Z.mod_small. exact Hx. Qed.

Lemma u32_idem (x : Z) : u32 (u32 x) = u32 x.
Proof. apply u32_small, u32_range. Qed.

Lemma u32_land_ones (x : Z) : u32 x = Z.land x (Z.ones 32).
Proof. unfold u32. rewrite Z.land_ones by lia. reflexivity. Qed.

Lemma u32_testbit (x i : Z) :
  Z.testbit (u32 x) i = Z.testbit x i && (i <? 32).
Proof.
  rewrite u32_land_ones, Z.land_spec.
  destruct (Z.ltb_spec i 32) as [Hlt | Hge].
  - destruct (Z.neg_nonneg_cases i) as [Hneg | Hpos].
    + now rewrite !Z.testbit_neg_r by exact Hneg.
    + rewrite Z.ones_spec_low by lia. reflexivity.
  - rewrite Z.ones_spec_high by lia. reflexivity.
Qed.

Lemma not32_testbit (x i : Z) :
  0 <= i -> Z.testbit (not32 x) i = negb (Z.testbit x i) && (i <? 32).
Proof.
  intros Hi. unfold not32. rewrite u32_testbit, Z.lnot_spec by exact Hi.
  reflexivity.
Qed.

Lemma FIELD_PREP_zero (mask : Z) : FIELD_PREP mask 0 = 0.
Proof. unfold FIELD_PREP. rewrite Z.shiftl_0_l, Z.land_0_l. reflexivity. Qed.

(** ** The format catalogue *)

Section Catalogue.

Variable fmts : list g2d_fmt.
Variable pix : v4l2_pix_format.

(** What the loop of [find_fmt] returns is the first entry of the table
    with the requested fourcc. *)
Lemma find_fmt_in_some (f : g2d_fmt) :
  find_fmt_in fmts pix = Some f ->
  exists pre post,
    fmts = pre ++ f :: post /\
    fourcc f = pixelformat pix /\
    Forall (fun g => fourcc g <> pixelformat pix) pre.
Proof.
  induction fmts as [| g rest IH]; simpl.
  - discriminate.
  - destruct (Z.eqb_spec (fourcc g) (pixelformat pix)) as [Heq | Hne].
    + intros [= <-]. exists [], rest. repeat split; auto.
    + intros Hfind. destruct (IH Hfind) as (pre & post & -> & Hf & Hpre).
      exists (g :: pre), post. repeat split; auto.
Qed.

Lemma find_fmt_in_none :
  find_fmt_in fmts pix = None <->
  (forall g, In g fmts -> fourcc g <> pixelformat pix).
Proof.
  induction fmts as [| g rest IH]; simpl.
  - split; [intros _ g [] | reflexivity].
  - destruct (Z.eqb_spec (fourcc g) (pixelformat pix)) as [Heq | Hne].
    + split; [discriminate | intros Hall; exfalso; apply (Hall g); auto].
    + rewrite IH. split.
      * intros Hall g' [<- | Hin]; auto.
      * intros Hall g' Hin. apply Hall. auto.
Qed.

Lemma find_fmt_in_match (g : g2d_fmt) :
  In g fmts -> fourcc g = pixelformat pix ->
  exists f, find_fmt_in fmts pix = Some f /\ In f fmts /\
            fourcc f = pixelformat pix.
Proof.
  intros Hin Heq.
  destruct (find_fmt_in fmts pix) as [f |] eqn:Hfind.
  - destruct (find_fmt_in_some f Hfind) as (pre & post & Hsplit & Hf & _).
    exists f. repeat split; auto.
    rewrite Hsplit. apply in_or_app. right. left. reflexivity.
  - exfalso. apply (proj1 find_fmt_in_none Hfind g Hin Heq).
Qed.

End Catalogue.

Lemma find_fmt_shipped (pix : v4l2_pix_format) :
  find_fmt pix =
    if V4L2_PIX_FMT_XBGR32 =? pixelformat pix
    then Some {| fourcc := V4L2_PIX_FMT_XBGR32; depth := 32;
                 hw_id := G2D_FORMAT_BGRX8888 |}
    else None.
Proof. reflexivity. Qed.

Lemma hw_id_shipped (pix : v4l2_pix_format) :
  v4l2_fmt_to_hw_id pix = G2D_FORMAT_BGRX8888.
Proof.
  unfold v4l2_fmt_to_hw_id. rewrite find_fmt_shipped.
  destruct (V4L2_PIX_FMT_XBGR32 =? pixelformat pix); reflexivity.
Qed.

(** C6.  The hardware-id lookup is total and has two outcomes: when some
    catalogue entry carries the descriptor's fourcc, [find_fmt] returns such
    an entry and the lookup returns its hardware id; when none does,
    [find_fmt] returns NULL and the lookup returns the fallback
    [G2D_FORMAT_BGRX8888]. *)
Theorem v4l2_fmt_to_hw_id_resolves : forall pix : v4l2_pix_format,
  ((exists g, In g g2d_supported_fmts /\ fourcc g = pixelformat pix) ->
   exists f, find_fmt pix = Some f /\ In f g2d_supported_fmts /\
             fourcc f = pixelformat pix /\
             v4l2_fmt_to_hw_id pix = hw_id f)
  /\
  ((forall g, In g g2d_supported_fmts -> fourcc g <> pixelformat pix) ->
   find_fmt pix = None /\ v4l2_fmt_to_hw_id pix = G2D_FORMAT_BGRX8888).
Proof.
  intros pix. split.
  - intros (g & Hin & Heq).
    destruct (find_fmt_in_match g2d_supported_fmts pix g Hin Heq)
      as (f & Hfind & Hfin & Hf).
    exists f. unfold v4l2_fmt_to_hw_id, find_fmt. rewrite Hfind. auto.
  - intros Hall.
    pose proof (proj2 (find_fmt_in_none g2d_supported_fmts pix) Hall) as Hnone.
    unfold v4l2_fmt_to_hw_id, find_fmt. rewrite Hnone. auto.
Qed.

(** C10.  With the shipped one-entry catalogue the hardware-id lookup is a
    constant function: every descriptor resolves to [G2D_FORMAT_BGRX8888]. *)
Theorem v4l2_fmt_to_hw_id_constant : forall pix : v4l2_pix_format,
  g2d_supported_fmts =
    [ {| fourcc := V4L2_PIX_FMT_XBGR32; depth := 32;
         hw_id := G2D_FORMAT_BGRX8888 |} ]
  /\ v4l2_fmt_to_hw_id pix = G2D_FORMAT_BGRX8888.
Proof. intros pix. split; [reflexivity | apply hw_id_shipped]. Qed.

(** ** The channel-layout table *)

(** C7.  [fmt2yuvcnt] is total: every format id gets three counts, each
    non-negative (and at most 6, 4 and 1); the semi-planar ids with
    interleaved chroma get (1, 2, 0), the planar ids (1, 1, 1), and an id
    past the last format of the enumeration keeps the all-zero default. *)
Theorem fmt2yuvcnt_total : forall format : Z,
  (0 <= ycnt_of (fmt2yuvcnt format) <= 6 /\
   0 <= ucnt_of (fmt2yuvcnt format) <= 4 /\
   0 <= vcnt_of (fmt2yuvcnt format) <= 1)
  /\
  (In format [G2D_FORMAT_YUV422UVC_V1U1V0U0; G2D_FORMAT_YUV422UVC_U1V1U0V0;
              G2D_FORMAT_YUV420UVC_V1U1V0U0; G2D_FORMAT_YUV420UVC_U1V1U0V0;
              G2D_FORMAT_YUV411UVC_V1U1V0U0; G2D_FORMAT_YUV411UVC_U1V1U0V0] ->
   fmt2yuvcnt format = (1, 2, 0))
  /\
  (In format [G2D_FORMAT_YUV422_PLANAR; G2D_FORMAT_YUV420_PLANAR;
              G2D_FORMAT_YUV411_PLANAR] ->
   fmt2yuvcnt format = (1, 1, 1))
  /\
  (G2D_FORMAT_MAX <= format -> fmt2yuvcnt format = (0, 0, 0)).
Proof.
  intros format. repeat split.
  all: try (intros Hin; simpl in Hin;
            repeat (destruct Hin as [<- | Hin]; [reflexivity |]);
            contradiction).
  all: unfold fmt2yuvcnt, G2D_FORMAT_MAX, G2D_FORMAT_BGRX8888,
         G2D_FORMAT_BGR888, G2D_FORMAT_BGRA5551, G2D_FORMAT_BGRA1010102.
  all: repeat match goal with
         | |- context [?a <=? ?b] => destruct (Z.leb_spec a b)
         | |- context [?a =? ?b] => destruct (Z.eqb_spec a b)
         end; cbn; try lia; try reflexivity.
Qed.

(** ** [g2d_try_fmt] *)

(** [g2d_try_fmt] reads [fmt->depth] through NULL exactly when the requested
    pixel format is not the catalogue's. *)
Lemma g2d_try_fmt_fault_iff (pix : v4l2_pix_format) :
  g2d_try_fmt pix = Fault NullPointer <->
  pixelformat pix <> V4L2_PIX_FMT_XBGR32.
Proof.
  unfold g2d_try_fmt. rewrite find_fmt_shipped.
  destruct (Z.eqb_spec V4L2_PIX_FMT_XBGR32 (pixelformat pix)) as [Heq | Hne].
  - split; [discriminate | congruence].
  - split; [congruence | reflexivity].
Qed.

(** On a supported format the call returns 0 with the size clamped to
    8..2048 and the line and image sizes of a 32-bit format. *)
Lemma g2d_try_fmt_supported (pix : v4l2_pix_format) :
  pixelformat pix = V4L2_PIX_FMT_XBGR32 ->
  g2d_try_fmt pix =
    Ok (0, {| width := clamp (width pix) G2D_MIN_WIDTH G2D_MAX_WIDTH;
              height := clamp (height pix) G2D_MIN_HEIGHT G2D_MAX_HEIGHT;
              pixelformat := V4L2_PIX_FMT_XBGR32;
              bytesperline :=
                4 * clamp (width pix) G2D_MIN_WIDTH G2D_MAX_WIDTH;
              sizeimage :=
                clamp (height pix) G2D_MIN_HEIGHT G2D_MAX_HEIGHT
                * (4 * clamp (width pix) G2D_MIN_WIDTH G2D_MAX_WIDTH);
              flags := flags pix |}).
Proof.
  intros Hfmt. unfold g2d_try_fmt. rewrite find_fmt_shipped, Hfmt.
  rewrite Z.eqb_refl. cbn [depth].
  set (w := clamp (width pix) G2D_MIN_WIDTH G2D_MAX_WIDTH).
  set (h := clamp (height pix) G2D_MIN_HEIGHT G2D_MAX_HEIGHT).
  assert (Hw : 8 <= w <= 2048)
    by (unfold w, clamp, G2D_MIN_WIDTH, G2D_MAX_WIDTH; lia).
  assert (Hh : 8 <= h <= 2048)
    by (unfold h, clamp, G2D_MIN_HEIGHT, G2D_MAX_HEIGHT; lia).
  assert (Hbpl : Z.shiftr (u32 (w * 32)) 3 = 4 * w).
  { rewrite u32_small by lia. rewrite Z.shiftr_div_pow2 by lia.
    change (2 ^ 3) with 8. replace (w * 32) with (4 * w * 8) by lia.
    apply Z.div_mul. lia. }
  rewrite Hbpl. rewrite (u32_small (h * (4 * w))) by nia.
  reflexivity.
Qed.

(** C9.  [g2d_try_fmt] on a request for RGB24, a pixel format the catalogue
    does not hold: [find_fmt] returns NULL, the fallback fourcc is stored,
    and the next read, [fmt->depth], goes through the NULL pointer. *)
Theorem g2d_try_fmt_null_format :
  find_fmt {| width := 800; height := 480; pixelformat := V4L2_PIX_FMT_RGB24;
              bytesperline := 0; sizeimage := 0; flags := 0 |} = None
  /\
  g2d_try_fmt {| width := 800; height := 480;
                 pixelformat := V4L2_PIX_FMT_RGB24;
                 bytesperline := 0; sizeimage := 0; flags := 0 |}
  = Fault NullPointer.
Proof. split; reflexivity. Qed.

(** ** Selection rectangles *)

(** On a frame of [W] by [H] pixels a rectangle passes [g2d_try_selection]
    exactly when it starts at non-negative coordinates and its far corner is
    at most [(W - 1, H - 1)]. *)
Lemma g2d_try_selection_bounds (ctx : sunxi_g2d_ctx) (f : frame_id)
  (rc : v4l2_rect) :
  let W := width (v4l2_pix_fmt (frame_of ctx f)) in
  let H := height (v4l2_pix_fmt (frame_of ctx f)) in
  1 <= W < 2 ^ 32 -> 1 <= H < 2 ^ 32 ->
  - 2 ^ 31 <= left rc < 2 ^ 31 -> - 2 ^ 31 <= top rc < 2 ^ 31 ->
  0 <= r_width rc < 2 ^ 31 -> 0 <= r_height rc < 2 ^ 31 ->
  g2d_try_selection ctx (selection_request f rc) =
    if (0 <=? left rc) && (0 <=? top rc)
       && (left rc + r_width rc <=? W - 1)
       && (top rc + r_height rc <=? H - 1)
    then 0 else - EINVAL.
Proof.
  intros W H HW HH Hl Ht Hw Hh.
  assert (Hgoal :
    (if (top rc <? 0) || (left rc <? 0) then - EINVAL
     else if (u32 (left rc) >? u32 (W - 1)) || (u32 (top rc) >? u32 (H - 1))
          then - EINVAL
          else if u32 (left rc + r_width rc) >? u32 (W - 1) then - EINVAL
               else if u32 (top rc + r_height rc) >? u32 (H - 1)
                    then - EINVAL else 0)
    = (if (0 <=? left rc) && (0 <=? top rc)
          && (left rc + r_width rc <=? W - 1)
          && (top rc + r_height rc <=? H - 1)
       then 0 else - EINVAL)).
  { destruct (Z.ltb_spec (top rc) 0); cbn [orb].
    { destruct (0 <=? left rc); cbn [andb];
        destruct (Z.leb_spec 0 (top rc)); try lia; reflexivity. }
    destruct (Z.ltb_spec (left rc) 0); cbn [orb].
    { destruct (Z.leb_spec 0 (left rc)); try lia; reflexivity. }
    rewrite !u32_small by lia.
    destruct (Z.leb_spec 0 (left rc)); try lia.
    destruct (Z.leb_spec 0 (top rc)); try lia. cbn [andb].
    rewrite !Z.gtb_ltb.
    repeat match goal with
           | |- context [?a <? ?b] => destruct (Z.ltb_spec a b)
           | |- context [?a <=? ?b] => destruct (Z.leb_spec a b)
           end; cbn [orb andb]; try lia; reflexivity. }
  destruct f; exact Hgoal.
Qed.

(** A request [g2d_try_selection] refuses leaves the context as it was. *)
Lemma g2d_s_selection_refused (ctx : sunxi_g2d_ctx) (s : v4l2_selection) :
  g2d_try_selection ctx s = - EINVAL ->
  g2d_s_selection ctx s = (- EINVAL, ctx).
Proof. intros Hret. unfold g2d_s_selection. rewrite Hret. reflexivity. Qed.

(** C1.  On a frame of [W] by [H] pixels (both at least 1) the selection
    setter refuses the out-of-bounds rectangle that starts at column [W],
    and it refuses the full-frame rectangle [(0, 0, W, H)] as well, since
    [left + width] is compared with [W - 1] and [top + height] with
    [H - 1].  Both requests return [-EINVAL] and leave the context
    unchanged. *)
Theorem g2d_s_selection_frame_edge :
  forall (ctx : sunxi_g2d_ctx) (f : frame_id),
  let W := width (v4l2_pix_fmt (frame_of ctx f)) in
  let H := height (v4l2_pix_fmt (frame_of ctx f)) in
  1 <= W < 2 ^ 31 -> 1 <= H < 2 ^ 31 ->
  g2d_s_selection ctx (selection_request f (full_frame W H))
    = (- EINVAL, ctx)
  /\
  g2d_s_selection ctx
    (selection_request f
       {| left := W; top := 0; r_width := 1; r_height := 1 |})
    = (- EINVAL, ctx).
Proof.
  intros ctx f W H HW HH. split; apply g2d_s_selection_refused.
  - rewrite g2d_try_selection_bounds; cbn [full_frame left top r_width r_height];
      fold W H; try lia.
    destruct (Z.leb_spec (0 + W) (W - 1)); try lia.
    rewrite Bool.andb_false_r. reflexivity.
  - rewrite g2d_try_selection_bounds; cbn [left top r_width r_height];
      fold W H; try lia.
    destruct (Z.leb_spec (W + 1) (W - 1)); try lia.
    rewrite Bool.andb_false_r. reflexivity.
Qed.

(** The frame [g2d_open] sets up, 800 by 480: the full-frame compose
    rectangle and the one that starts at column 800 are both refused. *)
Lemma g2d_s_selection_frame_edge_witness :
  g2d_s_selection g2d_open_ctx
    (selection_request DST (full_frame 800 480)) = (- EINVAL, g2d_open_ctx)
  /\
  g2d_s_selection g2d_open_ctx
    (selection_request DST
       {| left := 800; top := 0; r_width := 1; r_height := 1 |})
    = (- EINVAL, g2d_open_ctx).
Proof.
  apply (g2d_s_selection_frame_edge g2d_open_ctx DST);
    vm_compute; (split; [discriminate | reflexivity]).
Defined.

(** The rectangle [g2d_g_selection] reports as the compose bounds of that
    frame is the full frame, the one the setter refuses; the largest
    rectangle at the origin the setter takes is one pixel short each way. *)
Lemma g2d_selection_bounds_not_settable :
  g2d_g_selection g2d_open_ctx
    {| sel_type := V4L2_BUF_TYPE_VIDEO_CAPTURE;
       target := V4L2_SEL_TGT_COMPOSE_BOUNDS;
       r := full_frame 0 0 |} = (0, full_frame 800 480)
  /\
  fst (g2d_s_selection g2d_open_ctx
         (selection_request DST (full_frame 800 480))) = - EINVAL
  /\
  fst (g2d_s_selection g2d_open_ctx
         (selection_request DST (full_frame 799 479))) = 0.
Proof. repeat split. Qed.

(** ** Register code *)

Lemma land_u32_l (a b : Z) : u32 (Z.land (u32 a) b) = Z.land (u32 a) b.
Proof.
  apply Z.bits_inj'. intros i Hi.
  rewrite u32_testbit, !Z.land_spec, u32_testbit.
  destruct (Z.testbit a i), (i <? 32), (Z.testbit b i); reflexivity.
Qed.

Lemma lor_u32 (a b : Z) : u32 (Z.lor (u32 a) (u32 b)) = Z.lor (u32 a) (u32 b).
Proof.
  apply Z.bits_inj'. intros i Hi.
  rewrite u32_testbit, !Z.lor_spec, !u32_testbit.
  destruct (Z.testbit a i), (i <? 32), (Z.testbit b i); reflexivity.
Qed.

Lemma base_writel_same (g : sunxi_g2d) (r : reg) (v : Z) :
  base (writel v r g) r = u32 v.
Proof.
  cbn [base writel].
  destruct (reg_beq r r) eqn:E; [reflexivity |].
  destruct (reg_eq_dec r r) as [Heq | Hne]; [| contradiction].
  apply internal_reg_dec_lb in Heq. congruence.
Qed.

Lemma base_writel_other (g : sunxi_g2d) (r r' : reg) (v : Z) :
  r' <> r -> base (writel v r g) r' = base g r'.
Proof.
  intros Hne. cbn [base writel].
  destruct (reg_beq r' r) eqn:E; [| reflexivity].
  apply internal_reg_dec_bl in E. contradiction.
Qed.

(** Running register code symbolically: unfold the monad, then read a
    register back through the stores made on top of it. *)
Ltac io_run :=
  cbv beta iota zeta delta
    [bind ret rd when g2d_write g2d_set_bits g2d_clr_bits g2d_read
     cw_of cx_of cy_of fst snd].

Ltac read_reg :=
  repeat first
    [ rewrite base_writel_same
    | rewrite base_writel_other by discriminate ].

Section RegisterCode.

Context {regs_h : sunxi_g2d_regs}.

(** The value [g2d_clr_bits] leaves in a register has every bit of the mask
    clear. *)
Lemma clr_bits_clears (x bits m : Z) :
  (forall i, 0 <= i -> Z.testbit m i = true -> Z.testbit bits i = true) ->
  Z.land (Z.land (u32 x) (not32 bits)) m = 0.
Proof.
  intros Hsub. apply Z.bits_inj'. intros i Hi.
  rewrite Z.bits_0, !Z.land_spec, u32_testbit, not32_testbit by exact Hi.
  destruct (Z.testbit m i) eqn:Hm.
  - rewrite (Hsub i Hi Hm). cbn. now rewrite !Bool.andb_false_r.
  - now rewrite Bool.andb_false_r.
Qed.

(** C5.  [g2d_mixer_irq_query] always returns, with 1 or 0; it returns 1
    exactly when the pending bit of [G2D_MIXER_INT] is set.  When it returns
    1 it has issued one store, to [G2D_MIXER_INT], of the value read with
    the pending bit and the interrupt-enable bit both cleared, and no other
    register has changed; when it returns 0 the device is as it was (no
    store at all). *)
Theorem g2d_mixer_irq_query_pending : forall g : sunxi_g2d,
  let tmp := readl g G2D_MIXER_INT in
  let cleared :=
    Z.land tmp
      (not32 (Z.lor G2D_MIXER_INT_IRQ_PENDING G2D_MIXER_INT_FINISH_IRQ_EN)) in
  exists (rv : Z) (g' : sunxi_g2d),
    g2d_mixer_irq_query g = Ok (rv, g') /\
    (rv = 1 \/ rv = 0) /\
    (rv = 1 <-> Z.land tmp G2D_MIXER_INT_IRQ_PENDING <> 0) /\
    (rv = 1 ->
       stores g' = (G2D_MIXER_INT, cleared) :: stores g /\
       base g' G2D_MIXER_INT = cleared /\
       (forall r, r <> G2D_MIXER_INT -> base g' r = base g r) /\
       Z.land cleared G2D_MIXER_INT_IRQ_PENDING = 0 /\
       Z.land cleared G2D_MIXER_INT_FINISH_IRQ_EN = 0) /\
    (rv = 0 -> g' = g).
Proof.
  intros g tmp cleared.
  unfold g2d_mixer_irq_query, bind, g2d_read. fold tmp.
  destruct (Z.eqb_spec (Z.land tmp G2D_MIXER_INT_IRQ_PENDING) 0)
    as [Hclear | Hset]; cbn [negb].
  - exists 0, g. unfold ret.
    split; [reflexivity |]. split; [right; reflexivity |].
    split; [split; [discriminate | contradiction] |].
    split; [discriminate | reflexivity].
  - exists 1, (writel cleared G2D_MIXER_INT g).
    unfold g2d_clr_bits, ret. fold tmp. fold cleared.
    assert (Hu : u32 cleared = cleared) by apply land_u32_l.
    split; [reflexivity |]. split; [left; reflexivity |].
    split; [split; [intros _; exact Hset | reflexivity] |].
    split; [intros _ | discriminate].
    split; [cbn [stores writel]; now rewrite Hu |].
    split; [now rewrite base_writel_same |].
    split; [intros r Hr; now apply base_writel_other |].
    split; apply clr_bits_clears; intros i Hi Hm; rewrite Z.lor_spec, Hm.
    + reflexivity.
    + apply Bool.orb_true_r.
Qed.

(** What [g2d_mixer_reset] does to the device: two stores to
    [G2D_AHB_RESET], the first with the mixer reset bit cleared, the second
    with it set again. *)
Lemma g2d_mixer_reset_run (g : sunxi_g2d) :
  let low := Z.land (readl g G2D_AHB_RESET) (not32 G2D_AHB_MIXER_RESET) in
  let high := Z.lor low (u32 G2D_AHB_MIXER_RESET) in
  g2d_mixer_reset g =
    Ok (tt, writel high G2D_AHB_RESET (writel low G2D_AHB_RESET g)).
Proof.
  intros low high. unfold g2d_mixer_reset, bind, g2d_clr_bits, g2d_set_bits.
  fold low. unfold readl at 1. rewrite base_writel_same.
  assert (Hlow : u32 low = low) by apply land_u32_l.
  rewrite !Hlow. reflexivity.
Qed.

(** C8.  [g2d_rot_reset] and [g2d_mixer_reset] are the same function of the
    device: from every state both issue the same two stores to
    [G2D_AHB_RESET] (mixer reset bit cleared, then set) and end in the same
    state.  No other register changes, every bit of [G2D_AHB_RESET] outside
    the mixer reset mask keeps its value, and so does the rotation reset bit
    whenever it is not part of the mixer reset mask. *)
Theorem g2d_rot_reset_is_mixer_reset : forall g : sunxi_g2d,
  let low := Z.land (readl g G2D_AHB_RESET) (not32 G2D_AHB_MIXER_RESET) in
  let high := Z.lor low (u32 G2D_AHB_MIXER_RESET) in
  g2d_rot_reset g = g2d_mixer_reset g /\
  exists g' : sunxi_g2d,
    g2d_rot_reset g = Ok (tt, g') /\
    stores g' = (G2D_AHB_RESET, high) :: (G2D_AHB_RESET, low) :: stores g /\
    base g' G2D_AHB_RESET = high /\
    (forall r, r <> G2D_AHB_RESET -> base g' r = base g r) /\
    (forall i, 0 <= i -> Z.testbit G2D_AHB_MIXER_RESET i = false ->
       Z.testbit (base g' G2D_AHB_RESET) i
       = Z.testbit (readl g G2D_AHB_RESET) i) /\
    (Z.land G2D_AHB_ROT_RESET G2D_AHB_MIXER_RESET = 0 ->
       Z.land (base g' G2D_AHB_RESET) G2D_AHB_ROT_RESET
       = Z.land (readl g G2D_AHB_RESET) G2D_AHB_ROT_RESET).
Proof.
  intros g low high.
  assert (Hhigh : u32 high = high).
  { unfold high, low, readl. rewrite <- (land_u32_l (base g G2D_AHB_RESET)).
    apply lor_u32. }
  assert (Hlow : u32 low = low) by apply land_u32_l.
  assert (Hbits : forall i, 0 <= i ->
            Z.testbit G2D_AHB_MIXER_RESET i = false ->
            Z.testbit high i = Z.testbit (readl g G2D_AHB_RESET) i).
  { intros i Hi Hm. unfold high, low.
    rewrite Z.lor_spec, Z.land_spec, not32_testbit, u32_testbit, Hm
      by exact Hi.
    unfold readl. rewrite u32_testbit. cbn [negb andb orb].
    destruct (Z.testbit (base g G2D_AHB_RESET) i), (i <? 32); reflexivity. }
  split; [reflexivity |].
  exists (writel high G2D_AHB_RESET (writel low G2D_AHB_RESET g)).
  split; [apply g2d_mixer_reset_run |].
  split; [cbn [stores writel]; now rewrite Hhigh, Hlow |].
  split; [now rewrite base_writel_same |].
  split; [intros r Hr; now rewrite !base_writel_other by exact Hr |].
  rewrite base_writel_same, Hhigh.
  split; [exact Hbits |].
  intros Hdisj. apply Z.bits_inj'. intros i Hi.
  rewrite !Z.land_spec.
  destruct (Z.testbit G2D_AHB_ROT_RESET i) eqn:Hrot;
    [| now rewrite !Bool.andb_false_r].
  rewrite Hbits; [reflexivity | exact Hi |].
  assert (Hand : Z.testbit (Z.land G2D_AHB_ROT_RESET G2D_AHB_MIXER_RESET) i
                 = false) by (rewrite Hdisj; apply Z.bits_0).
  rewrite Z.land_spec, Hrot in Hand. exact Hand.
Qed.

End RegisterCode.

(** ** Plane geometry *)

Section PlaneGeometry.

Context {regs_h : sunxi_g2d_regs}.
Variable CONFIG_ARCH_DMA_ADDR_T_64BIT : bool.

Lemma wb_chroma_packed (fmt_hw_id : Z) (frm : g2d_frame) :
  planar_yuv_id fmt_hw_id = false ->
  wb_chroma fmt_hw_id frm = (Some 0, Some 0, Some 0).
Proof.
  unfold planar_yuv_id, wb_chroma.
  unfold G2D_FORMAT_YUV422UVC_V1U1V0U0, G2D_FORMAT_YUV422_PLANAR,
    G2D_FORMAT_YUV420UVC_V1U1V0U0, G2D_FORMAT_YUV420_PLANAR,
    G2D_FORMAT_YUV411UVC_V1U1V0U0, G2D_FORMAT_YUV411_PLANAR.
  intros Hid.
  repeat match goal with
         | |- context [?a <=? ?b] => destruct (Z.leb_spec a b)
         | H : context [?a <=? ?b] |- _ => destruct (Z.leb_spec a b)
         end; cbn in *; try lia; try discriminate; reflexivity.
Qed.

Lemma vlayer_chroma_packed (fmt_hw_id : Z) (frm : g2d_frame) :
  planar_yuv_id fmt_hw_id = false ->
  vlayer_chroma fmt_hw_id frm = (Some 0, Some 0, Some 0).
Proof.
  unfold planar_yuv_id, vlayer_chroma.
  unfold G2D_FORMAT_YUV422UVC_V1U1V0U0, G2D_FORMAT_YUV422_PLANAR,
    G2D_FORMAT_YUV420UVC_V1U1V0U0, G2D_FORMAT_YUV420_PLANAR,
    G2D_FORMAT_YUV411UVC_V1U1V0U0, G2D_FORMAT_YUV411_PLANAR.
  intros Hid.
  repeat match goal with
         | |- context [?a <=? ?b] => destruct (Z.leb_spec a b)
         | H : context [?a <=? ?b] |- _ => destruct (Z.leb_spec a b)
         end; cbn in *; try lia; try discriminate; reflexivity.
Qed.

(** The six geometry registers of the write-back block and of the video
    layer hold the same values once the two functions have run on the same
    frame and addresses, whenever the hardware id is outside the planar YUV
    families. *)
Lemma plane_geometry_packed (fmt_hw_id : Z) (frm : g2d_frame)
  (addr : plane_addrs) (layer_alpha : Z) (g g' : sunxi_g2d) :
  planar_yuv_id fmt_hw_id = false ->
  exists g1 g2 : sunxi_g2d,
    wb_set_id CONFIG_ARCH_DMA_ADDR_T_64BIT fmt_hw_id frm addr g = Ok (tt, g1) /\
    vlayer_set_id CONFIG_ARCH_DMA_ADDR_T_64BIT fmt_hw_id frm addr layer_alpha g'
      = Ok (tt, g2) /\
    base g1 WB_PITCH0 = base g2 V0_PITCH0 /\
    base g1 WB_PITCH1 = base g2 V0_PITCH1 /\
    base g1 WB_PITCH2 = base g2 V0_PITCH2 /\
    base g1 WB_LADD0 = base g2 V0_LADDR0 /\
    base g1 WB_LADD1 = base g2 V0_LADDR1 /\
    base g1 WB_LADD2 = base g2 V0_LADDR2.
Proof.
  intros Hid.
  unfold wb_set_id, vlayer_set_id.
  rewrite (wb_chroma_packed fmt_hw_id frm Hid).
  rewrite (vlayer_chroma_packed fmt_hw_id frm Hid).
  destruct (premult_alpha frm), CONFIG_ARCH_DMA_ADDR_T_64BIT; io_run.
  all: eexists; eexists; split; [reflexivity |]; split; [reflexivity |].
  all: repeat split; read_reg; reflexivity.
Qed.

End PlaneGeometry.

(** C2.  For every frame and every triple of plane base addresses, both
    [g2d_wb_set] and [g2d_vlayer_set] run to completion, and the three
    pitches and three plane addresses left in the write-back registers are
    the ones left in the layer-input registers. *)
Theorem g2d_wb_set_geometry_as_vlayer :
  forall (regs_h : sunxi_g2d_regs) (CONFIG_ARCH_DMA_ADDR_T_64BIT : bool)
         (frm : g2d_frame) (addr : plane_addrs) (layer_alpha : Z)
         (g g' : sunxi_g2d),
  exists g1 g2 : sunxi_g2d,
    g2d_wb_set CONFIG_ARCH_DMA_ADDR_T_64BIT frm addr g = Ok (tt, g1) /\
    g2d_vlayer_set CONFIG_ARCH_DMA_ADDR_T_64BIT frm addr layer_alpha g'
      = Ok (tt, g2) /\
    base g1 WB_PITCH0 = base g2 V0_PITCH0 /\
    base g1 WB_PITCH1 = base g2 V0_PITCH1 /\
    base g1 WB_PITCH2 = base g2 V0_PITCH2 /\
    base g1 WB_LADD0 = base g2 V0_LADDR0 /\
    base g1 WB_LADD1 = base g2 V0_LADDR1 /\
    base g1 WB_LADD2 = base g2 V0_LADDR2.
Proof.
  intros regs_h cfg frm addr layer_alpha g g'.
  unfold g2d_wb_set, g2d_vlayer_set. rewrite hw_id_shipped.
  apply plane_geometry_packed. reflexivity.
Qed.

(** The 4:2:0 branches of the two bodies as they are written, at the
    hardware id [G2D_FORMAT_YUV420_PLANAR] that no frame resolves to, on the
    frame 640 by 480 with selection (16, 16, 320, 240) and alignment 8.  The
    write-back branch yields cw = 320, cx = 8, cy = 8, luma pitch 640 and
    chroma pitches 320.  The layer-input branch takes the chroma width from
    the selection instead of the frame: cw = 160, cx = 8, cy = 8, luma pitch
    640 and chroma pitches 160. *)
Lemma yuv420_plane_layout :
  forall (regs_h : sunxi_g2d_regs) (CONFIG_ARCH_DMA_ADDR_T_64BIT : bool)
         (addr : plane_addrs) (layer_alpha : Z) (g g' : sunxi_g2d),
  fmt2yuvcnt G2D_FORMAT_YUV420_PLANAR = (1, 1, 1) /\
  wb_chroma G2D_FORMAT_YUV420_PLANAR yuv420_frame
    = (Some 320, Some 8, Some 8) /\
  vlayer_chroma G2D_FORMAT_YUV420_PLANAR yuv420_frame
    = (Some 160, Some 8, Some 8) /\
  (exists g1 : sunxi_g2d,
     wb_set_id CONFIG_ARCH_DMA_ADDR_T_64BIT G2D_FORMAT_YUV420_PLANAR
       yuv420_frame addr g = Ok (tt, g1) /\
     base g1 WB_PITCH0 = 640 /\
     base g1 WB_PITCH1 = 320 /\
     base g1 WB_PITCH2 = 320) /\
  (exists g2 : sunxi_g2d,
     vlayer_set_id CONFIG_ARCH_DMA_ADDR_T_64BIT G2D_FORMAT_YUV420_PLANAR
       yuv420_frame addr layer_alpha g' = Ok (tt, g2) /\
     base g2 V0_PITCH0 = 640 /\
     base g2 V0_PITCH1 = 160 /\
     base g2 V0_PITCH2 = 160).
Proof.
  intros regs_h cfg addr layer_alpha g g'.
  split; [reflexivity |]. split; [reflexivity |]. split; [reflexivity |].
  split.
  - unfold wb_set_id.
    change (wb_chroma G2D_FORMAT_YUV420_PLANAR yuv420_frame)
      with (Some 320, Some 8, Some 8).
    change (premult_alpha yuv420_frame) with false.
    destruct cfg; io_run.
    all: eexists; split; [reflexivity |].
    all: repeat split; read_reg; reflexivity.
  - unfold vlayer_set_id.
    change (vlayer_chroma G2D_FORMAT_YUV420_PLANAR yuv420_frame)
      with (Some 160, Some 8, Some 8).
    destruct cfg; io_run.
    all: eexists; split; [reflexivity |].
    all: repeat split; read_reg; reflexivity.
Qed.





(** ** Size registers *)

(** C4.  A frame whose selection has width 0 and height 0.  The layer size
    registers ([V0_MBSIZE], [V0_SIZE]), the write-back size register
    ([WB_SIZE]) and the blend output size register ([BLD_OUT_SIZE]) receive
    0: those writes test the dimension for 0 before subtracting 1.  The
    blend-pipe input size register ([BLD_CH_ISIZE0] or [BLD_CH_ISIZE1])
    receives 0xFFFFFFFF: [g2d_bldin_set] subtracts 1 without the test. *)
Theorem size_registers_of_empty_selection :
  forall (regs_h : sunxi_g2d_regs) (CONFIG_ARCH_DMA_ADDR_T_64BIT : bool)
         (frm : g2d_frame) (l t : Z) (addr : plane_addrs) (layer_alpha : Z)
         (g : sunxi_g2d),
  (exists g1 : sunxi_g2d,
     g2d_vlayer_set CONFIG_ARCH_DMA_ADDR_T_64BIT (empty_selection frm l t)
       addr layer_alpha g = Ok (tt, g1) /\
     base g1 V0_MBSIZE = 0 /\ base g1 V0_SIZE = 0) /\
  (exists g2 : sunxi_g2d,
     g2d_wb_set CONFIG_ARCH_DMA_ADDR_T_64BIT (empty_selection frm l t)
       addr g = Ok (tt, g2) /\
     base g2 WB_SIZE = 0 /\ base g2 BLD_OUT_SIZE = 0) /\
  (exists g3 : sunxi_g2d,
     g2d_bldin_set (empty_selection frm l t) 0 g = Ok (tt, g3) /\
     base g3 BLD_CH_ISIZE0 = 0xFFFFFFFF) /\
  (exists g4 : sunxi_g2d,
     g2d_bldin_set (empty_selection frm l t) 1 g = Ok (tt, g4) /\
     base g4 BLD_CH_ISIZE1 = 0xFFFFFFFF).
Proof.
  intros regs_h cfg frm l t addr layer_alpha g.
  split; [| split; [| split]].
  - unfold g2d_vlayer_set. rewrite hw_id_shipped. unfold vlayer_set_id.
    rewrite vlayer_chroma_packed by reflexivity.
    cbn [empty_selection set_sel_r sel r r_width r_height premult_alpha
         Z.eqb].
    rewrite !FIELD_PREP_zero.
    destruct (premult_alpha frm), cfg; io_run.
    all: eexists; split; [reflexivity |].
    all: split; read_reg; reflexivity.
  - unfold g2d_wb_set. rewrite hw_id_shipped. unfold wb_set_id.
    rewrite wb_chroma_packed by reflexivity.
    cbn [empty_selection set_sel_r sel r r_width r_height premult_alpha
         Z.eqb].
    rewrite !FIELD_PREP_zero.
    destruct (premult_alpha frm), cfg; io_run.
    all: eexists; split; [reflexivity |].
    all: split; read_reg; reflexivity.
  - unfold g2d_bldin_set.
    cbn [empty_selection set_sel_r sel r r_width r_height premult_alpha
         Z.eqb].
    destruct (premult_alpha frm); io_run.
    all: eexists; split; [reflexivity |].
    all: read_reg; reflexivity.
  - unfold g2d_bldin_set.
    cbn [empty_selection set_sel_r sel r r_width r_height premult_alpha
         Z.eqb].
    destruct (premult_alpha frm); io_run.
    all: eexists; split; [reflexivity |].
    all: read_reg; reflexivity.
Qed.

(** The empty selection reaches the hardware: the selection setter takes
    [(0, 0, 0, 0)] on the capture frame, and the rectangle fill that follows
    programs [BLD_CH_ISIZE0] with 0xFFFFFFFF while the three guarded size
    registers get 0. *)
Lemma g2d_rectfill_empty_selection
  (regs_h : sunxi_g2d_regs) (CONFIG_ARCH_DMA_ADDR_T_64BIT : bool)
  (addr : plane_addrs) (g : sunxi_g2d) :
  let req := selection_request DST (full_frame 0 0) in
  fst (g2d_s_selection g2d_open_ctx req) = 0 /\
  exists g' : sunxi_g2d,
    g2d_rectfill CONFIG_ARCH_DMA_ADDR_T_64BIT
      (snd (g2d_s_selection g2d_open_ctx req)) addr g = Ok (tt, g') /\
    base g' BLD_CH_ISIZE0 = 0xFFFFFFFF /\
    base g' V0_MBSIZE = 0 /\
    base g' WB_SIZE = 0 /\
    base g' BLD_OUT_SIZE = 0.
Proof.
  intros req. split; [reflexivity |].
  change (snd (g2d_s_selection g2d_open_ctx req))
    with (set_frame g2d_open_ctx DST (empty_selection (dst g2d_open_ctx) 0 0)).
  unfold g2d_rectfill, g2d_vlayer_set, g2d_wb_set, g2d_bld_cs_set.
  rewrite !hw_id_shipped.
  unfold vlayer_set_id, wb_set_id, g2d_bldin_set, bld_cs_set_id, g2d_fc_set,
    g2d_hw_reset, g2d_mixer_irq_enable.
  rewrite vlayer_chroma_packed, wb_chroma_packed by reflexivity.
  cbn [set_frame dst empty_selection set_sel_r sel r r_width r_height
       premult_alpha g2d_open_ctx g2d_open_src Z.eqb Z.leb Z.compare
       G2D_FORMAT_BGRX8888 G2D_FORMAT_BGRA1010102 Pos.compare
       Pos.compare_cont].
  rewrite !FIELD_PREP_zero.
  destruct CONFIG_ARCH_DMA_ADDR_T_64BIT; io_run.
  all: eexists; split; [reflexivity |].
  all: repeat split; read_reg; reflexivity.
Qed.

(** ** Alignment *)

Lemma land_not32_ones (y k : Z) :
  0 <= k -> 0 <= y < 2 ^ 32 ->
  Z.land y (not32 (Z.ones k)) = Z.shiftl (Z.shiftr y k) k.
Proof.
  intros Hk Hy. rewrite <- Z.ldiff_ones_r by exact Hk.
  apply Z.bits_inj'. intros i Hi.
  rewrite Z.land_spec, Z.ldiff_spec, not32_testbit by exact Hi.
  destruct (Z.ltb_spec i 32) as [Hlt | Hge].
  - now rewrite Bool.andb_true_r.
  - rewrite (Z.bits_above_log2 y i); [reflexivity | lia |].
    destruct (Z.eq_dec y 0) as [-> | Hne]; [cbn; lia |].
    apply Z.log2_lt_pow2; [lia |].
    apply Z.lt_le_trans with (2 ^ 32); [lia |].
    apply Z.pow_le_mono_r; lia.
Qed.

(** X1.  [ALIGN] on a power-of-two alignment, when the sum does not wrap:
    the result is the least multiple of the alignment that is at least
    [n]; aligning to 1 changes nothing. *)
Theorem ALIGN_power_of_two : forall n k : Z,
  0 <= k < 32 -> 0 <= n -> n + 2 ^ k - 1 < 2 ^ 32 ->
  n <= ALIGN n (2 ^ k) < n + 2 ^ k /\
  (ALIGN n (2 ^ k)) mod 2 ^ k = 0 /\
  ALIGN n 1 = n.
Proof.
  intros n k Hk Hn Hfit.
  assert (Hpow : 0 < 2 ^ k) by (apply Z.pow_pos_nonneg; lia).
  assert (Hal : forall j, 0 <= j < 32 -> n + 2 ^ j - 1 < 2 ^ 32 ->
            ALIGN n (2 ^ j) = (n + 2 ^ j - 1) / 2 ^ j * 2 ^ j).
  { intros j Hj Hfitj.
    assert (Hpj : 0 < 2 ^ j) by (apply Z.pow_pos_nonneg; lia).
    unfold ALIGN.
    replace (2 ^ j - 1) with (Z.ones j) by (rewrite Z.ones_equiv; lia).
    assert (Hones : Z.ones j = 2 ^ j - 1) by (rewrite Z.ones_equiv; lia).
    rewrite (u32_small (Z.ones j)) by lia.
    rewrite (u32_small (n + Z.ones j)) by lia.
    rewrite land_not32_ones by lia.
    rewrite Z.shiftl_mul_pow2, Z.shiftr_div_pow2 by lia.
    rewrite Hones. f_equal. f_equal. lia. }
  split; [| split].
  - rewrite Hal by lia.
    pose proof (Z.div_mod (n + 2 ^ k - 1) (2 ^ k) ltac:(lia)) as Hdm.
    pose proof (Z.mod_pos_bound (n + 2 ^ k - 1) (2 ^ k) Hpow) as Hmb.
    lia.
  - rewrite Hal by lia. apply Z.mod_mul. lia.
  - change 1 with (2 ^ 0) at 1. rewrite Hal by lia.
    change (2 ^ 0) with 1. rewrite Z.div_1_r. lia.
Qed.

(** 641 bytes at alignment 8 become 648. *)
Lemma ALIGN_power_of_two_witness :
  641 <= ALIGN 641 (2 ^ 3) < 641 + 2 ^ 3 /\
  (ALIGN 641 (2 ^ 3)) mod 2 ^ 3 = 0 /\
  ALIGN 641 1 = 641.
Proof. apply (ALIGN_power_of_two 641 3); lia. Defined.

(** ** The rectangle fill *)

Lemma land_low32 (CONFIG_ARCH_DMA_ADDR_T_64BIT : bool) (x : Z) :
  u32 (Z.land (uptr CONFIG_ARCH_DMA_ADDR_T_64BIT x) (GENMASK 31 0)) = u32 x.
Proof.
  change (GENMASK 31 0) with (Z.ones 32).
  rewrite <- u32_land_ones, u32_idem.
  destruct CONFIG_ARCH_DMA_ADDR_T_64BIT; unfold uptr; [| apply u32_idem].
  unfold u32, u64. apply Z.mod_mod_divide.
  exists (2 ^ 32). reflexivity.
Qed.

(** X2.  The rectangle fill on the context [g2d_open] sets up: BGRX8888,
    800 by 480, selection (200, 120, 400, 240), alignment 1.  The luma
    pitch programmed on both sides is 4 * 800 = 3200, the chroma pitches are
    0, and the plane-0 address is the buffer address plus
    3200 * 120 + 4 * 200 = 384800 (its low 32 bits). *)
Theorem g2d_rectfill_default_geometry :
  forall (regs_h : sunxi_g2d_regs) (CONFIG_ARCH_DMA_ADDR_T_64BIT : bool)
         (dst_addr : Z) (g : sunxi_g2d),
  exists g' : sunxi_g2d,
    g2d_rectfill CONFIG_ARCH_DMA_ADDR_T_64BIT g2d_open_ctx (dst_addr, 0, 0) g
      = Ok (tt, g') /\
    base g' V0_PITCH0 = 3200 /\ base g' WB_PITCH0 = 3200 /\
    base g' V0_PITCH1 = 0 /\ base g' WB_PITCH1 = 0 /\
    base g' V0_PITCH2 = 0 /\ base g' WB_PITCH2 = 0 /\
    base g' V0_LADDR0 = u32 (dst_addr + 384800) /\
    base g' WB_LADD0 = u32 (dst_addr + 384800) /\
    base g' WB_ATT = G2D_FORMAT_BGRX8888.
Proof.
  intros regs_h cfg dst_addr g.
  unfold g2d_rectfill, g2d_vlayer_set, g2d_wb_set, g2d_bld_cs_set.
  rewrite !hw_id_shipped.
  unfold vlayer_set_id, wb_set_id, g2d_bldin_set, bld_cs_set_id, g2d_fc_set,
    g2d_hw_reset, g2d_mixer_irq_enable.
  rewrite vlayer_chroma_packed, wb_chroma_packed by reflexivity.
  change (premult_alpha (dst g2d_open_ctx)) with true.
  change (0 =? 0) with true.
  change (G2D_FORMAT_BGRX8888 <=? G2D_FORMAT_BGRA1010102) with true.
  change (ALIGN
            (u32 (ycnt_of (fmt2yuvcnt G2D_FORMAT_BGRX8888)
                  * width (v4l2_pix_fmt (dst g2d_open_ctx))))
            (alignment (dst g2d_open_ctx))) with 3200.
  change (u32 (3200 * top (r (sel (dst g2d_open_ctx))))) with 384000.
  change (u32 (ycnt_of (fmt2yuvcnt G2D_FORMAT_BGRX8888)
               * left (r (sel (dst g2d_open_ctx))))) with 800.
  replace (addr_0 (dst_addr, 0, 0) + 384000 + 800)
    with (dst_addr + 384800) by (cbn [addr_0 fst]; lia).
  destruct cfg; io_run.
  all: eexists; split; [reflexivity |].
  all: repeat split; read_reg; try reflexivity.
  all: apply land_low32.
Qed.

(** X3.  [g2d_fc_set] always returns, and for a layer number other than
    0, 1, 2, 3 it leaves the device untouched. *)
Theorem g2d_fc_set_undefined_slot :
  forall (regs_h : sunxi_g2d_regs) (layer_no color_value : Z) (g : sunxi_g2d),
  exists g' : sunxi_g2d,
    g2d_fc_set layer_no color_value g = Ok (tt, g') /\
    (~ (0 <= layer_no <= 3) -> g' = g).
Proof.
  intros regs_h layer_no color_value g. unfold g2d_fc_set.
  destruct (Z.eqb_spec layer_no 0);
    [io_run; eexists; split; [reflexivity | lia] |].
  destruct (Z.eqb_spec layer_no 1);
    [io_run; eexists; split; [reflexivity | lia] |].
  destruct (Z.eqb_spec layer_no 2);
    [io_run; eexists; split; [reflexivity | lia] |].
  destruct (Z.eqb_spec layer_no 3);
    [io_run; eexists; split; [reflexivity | lia] |].
  exists g. split; reflexivity.
Qed.

(** X4.  [g2d_irq] reports the interrupt as handled exactly when a job
    context is current and the pending bit is set; when it reports
    [IRQ_NONE] it has not touched the device. *)
Theorem g2d_irq_handled :
  forall (regs_h : sunxi_g2d_regs) (curr : option sunxi_g2d_ctx)
         (g : sunxi_g2d),
  exists (rv : Z) (g' : sunxi_g2d),
    g2d_irq curr g = Ok (rv, g') /\
    (rv = IRQ_HANDLED \/ rv = IRQ_NONE) /\
    (rv = IRQ_HANDLED <->
       curr <> None /\
       Z.land (readl g G2D_MIXER_INT) G2D_MIXER_INT_IRQ_PENDING <> 0) /\
    (rv = IRQ_NONE -> g' = g).
Proof.
  intros regs_h curr g. unfold g2d_irq.
  destruct curr as [ctx |].
  - unfold bind at 1, g2d_mixer_irq_query, bind at 1, g2d_read.
    destruct (Z.eqb_spec (Z.land (readl g G2D_MIXER_INT)
                            G2D_MIXER_INT_IRQ_PENDING) 0) as [Hclear | Hset];
      cbn [negb].
    + exists IRQ_NONE, g. cbn.
      split; [reflexivity |]. split; [right; reflexivity |].
      split; [| reflexivity].
      split; [discriminate | intros [_ Hne]; contradiction].
    + io_run. cbn [Z.eqb]. unfold g2d_mixer_reset. io_run.
      eexists; eexists. split; [reflexivity |].
      split; [left; reflexivity |].
      split; [| discriminate].
      split; [intros _; split; [discriminate | exact Hset] | reflexivity].
  - exists IRQ_NONE, g.
    split; [reflexivity |]. split; [right; reflexivity |].
    split; [| reflexivity].
    split; [discriminate | intros [Hne _]; contradiction].
Qed.

(** X5.  [g2d_rectfill] always runs to completion, and the last two stores
    it issues are the arming of the completion interrupt (a plain write of
    [G2D_MIXER_INT_FINISH_IRQ_EN] to [G2D_MIXER_INT]) followed by the
    setting of the start bit in [G2D_MIXER_CTL]. *)
Theorem g2d_rectfill_arms_then_starts :
  forall (regs_h : sunxi_g2d_regs) (CONFIG_ARCH_DMA_ADDR_T_64BIT : bool)
         (ctx : sunxi_g2d_ctx) (addr : plane_addrs) (g : sunxi_g2d),
  exists g' : sunxi_g2d,
    g2d_rectfill CONFIG_ARCH_DMA_ADDR_T_64BIT ctx addr g = Ok (tt, g') /\
    firstn 2 (stores g') =
      [ (G2D_MIXER_CTL,
         Z.lor (readl g G2D_MIXER_CTL) (u32 G2D_MIXER_CTL_START));
        (G2D_MIXER_INT, u32 G2D_MIXER_INT_FINISH_IRQ_EN) ].
Proof.
  intros regs_h cfg ctx addr g.
  unfold g2d_rectfill, g2d_vlayer_set, g2d_wb_set, g2d_bld_cs_set.
  rewrite !hw_id_shipped.
  unfold vlayer_set_id, wb_set_id, g2d_bldin_set, bld_cs_set_id, g2d_fc_set,
    g2d_hw_reset, g2d_mixer_irq_enable.
  rewrite vlayer_chroma_packed, wb_chroma_packed by reflexivity.
  change (0 =? 0) with true.
  change (G2D_FORMAT_BGRX8888 <=? G2D_FORMAT_BGRA1010102) with true.
  destruct (premult_alpha (dst ctx)), cfg; io_run.
  all: eexists; split; [reflexivity |].
  all: cbn [firstn stores writel]; unfold readl at 1; read_reg.
  all: fold (readl g G2D_MIXER_CTL); unfold readl; rewrite lor_u32.
  all: reflexivity.
Qed.

(** ** Front-end checks *)

(** X6.  [g2d_try_fmt] on the supported pixel format returns 0 with the
    size clamped to 8..2048 each way, four bytes per pixel per line, and the
    image size that follows. *)
Theorem g2d_try_fmt_clamps : forall pix : v4l2_pix_format,
  pixelformat pix = V4L2_PIX_FMT_XBGR32 ->
  let w := clamp (width pix) G2D_MIN_WIDTH G2D_MAX_WIDTH in
  let h := clamp (height pix) G2D_MIN_HEIGHT G2D_MAX_HEIGHT in
  8 <= w <= 2048 /\ 8 <= h <= 2048 /\
  g2d_try_fmt pix =
    Ok (0, {| width := w; height := h;
              pixelformat := V4L2_PIX_FMT_XBGR32;
              bytesperline := 4 * w;
              sizeimage := h * (4 * w);
              flags := flags pix |}).
Proof.
  intros pix Hfmt w h.
  split; [unfold w, clamp, G2D_MIN_WIDTH, G2D_MAX_WIDTH; lia |].
  split; [unfold h, clamp, G2D_MIN_HEIGHT, G2D_MAX_HEIGHT; lia |].
  apply g2d_try_fmt_supported. exact Hfmt.
Qed.

(** A request for 4000 by 4 pixels comes back as 2048 by 8. *)
Lemma g2d_try_fmt_clamps_witness :
  8 <= 2048 <= 2048 /\ 8 <= 8 <= 2048 /\
  g2d_try_fmt {| width := 4000; height := 4;
                 pixelformat := V4L2_PIX_FMT_XBGR32;
                 bytesperline := 0; sizeimage := 0; flags := 0 |}
  = Ok (0, {| width := 2048; height := 8;
              pixelformat := V4L2_PIX_FMT_XBGR32;
              bytesperline := 8192; sizeimage := 65536; flags := 0 |}).
Proof.
  apply (g2d_try_fmt_clamps
           {| width := 4000; height := 4;
              pixelformat := V4L2_PIX_FMT_XBGR32;
              bytesperline := 0; sizeimage := 0; flags := 0 |}).
  reflexivity.
Defined.

(** [g2d_try_selection] on a request for the queue of [f], for every
    rectangle of the type ([left] and [top] signed, [width] and [height]
    unsigned 32-bit): the two sums are compared as they are after wrapping
    at 2^32. *)
Lemma g2d_try_selection_exact (ctx : sunxi_g2d_ctx) (f : frame_id)
  (rc : v4l2_rect) :
  let W := width (v4l2_pix_fmt (frame_of ctx f)) in
  let H := height (v4l2_pix_fmt (frame_of ctx f)) in
  1 <= W < 2 ^ 32 -> 1 <= H < 2 ^ 32 ->
  - 2 ^ 31 <= left rc < 2 ^ 31 -> - 2 ^ 31 <= top rc < 2 ^ 31 ->
  g2d_try_selection ctx (selection_request f rc) =
    if (0 <=? left rc) && (0 <=? top rc)
       && (left rc <=? W - 1) && (top rc <=? H - 1)
       && (u32 (left rc + r_width rc) <=? W - 1)
       && (u32 (top rc + r_height rc) <=? H - 1)
    then 0 else - EINVAL.
Proof.
  intros W H HW HH Hl Ht.
  assert (Hgoal :
    (if (top rc <? 0) || (left rc <? 0) then - EINVAL
     else if (u32 (left rc) >? u32 (W - 1)) || (u32 (top rc) >? u32 (H - 1))
          then - EINVAL
          else if u32 (left rc + r_width rc) >? u32 (W - 1) then - EINVAL
               else if u32 (top rc + r_height rc) >? u32 (H - 1)
                    then - EINVAL else 0)
    = (if (0 <=? left rc) && (0 <=? top rc)
          && (left rc <=? W - 1) && (top rc <=? H - 1)
          && (u32 (left rc + r_width rc) <=? W - 1)
          && (u32 (top rc + r_height rc) <=? H - 1)
       then 0 else - EINVAL)).
  { rewrite (u32_small (W - 1)), (u32_small (H - 1)) by lia.
    destruct (Z.ltb_spec (top rc) 0); cbn [orb].
    { destruct (0 <=? left rc); cbn [andb];
        destruct (Z.leb_spec 0 (top rc)); try lia; reflexivity. }
    destruct (Z.ltb_spec (left rc) 0); cbn [orb].
    { destruct (Z.leb_spec 0 (left rc)); try lia; reflexivity. }
    rewrite (u32_small (left rc)), (u32_small (top rc)) by lia.
    destruct (Z.leb_spec 0 (left rc)); try lia.
    destruct (Z.leb_spec 0 (top rc)); try lia. cbn [andb].
    rewrite !Z.gtb_ltb.
    generalize (u32 (left rc + r_width rc)) (u32 (top rc + r_height rc)).
    intros sw sh.
    repeat match goal with
           | |- context [?a <? ?b] => destruct (Z.ltb_spec a b)
           | |- context [?a <=? ?b] => destruct (Z.leb_spec a b)
           end; cbn [orb andb]; try lia; reflexivity. }
  destruct f; exact Hgoal.
Qed.

(** X7.  The rectangles [g2d_s_selection] takes on a frame of [W] by [H]
    pixels, for every rectangle of the type ([left] and [top] signed,
    [width] and [height] unsigned 32-bit).  They are those with
    [0 <= left <= W - 1], [0 <= top <= H - 1] and the two sums
    [left + width] and [top + height], taken modulo 2^32, at most [W - 1]
    and [H - 1]; it stores such a rectangle in the frame and refuses any
    other with [-EINVAL], leaving the context as it was.  For a rectangle
    whose sums stay below 2^32 the condition is [left, top >= 0],
    [left + width <= W - 1] and [top + height <= H - 1]. *)
Theorem g2d_s_selection_accepts :
  forall (ctx : sunxi_g2d_ctx) (f : frame_id) (rc : v4l2_rect),
  let W := width (v4l2_pix_fmt (frame_of ctx f)) in
  let H := height (v4l2_pix_fmt (frame_of ctx f)) in
  1 <= W < 2 ^ 32 -> 1 <= H < 2 ^ 32 ->
  - 2 ^ 31 <= left rc < 2 ^ 31 -> - 2 ^ 31 <= top rc < 2 ^ 31 ->
  0 <= r_width rc < 2 ^ 32 -> 0 <= r_height rc < 2 ^ 32 ->
  g2d_s_selection ctx (selection_request f rc) =
    (if (0 <=? left rc) && (0 <=? top rc)
        && (left rc <=? W - 1) && (top rc <=? H - 1)
        && ((left rc + r_width rc) mod 2 ^ 32 <=? W - 1)
        && ((top rc + r_height rc) mod 2 ^ 32 <=? H - 1)
     then (0, set_frame ctx f (set_sel_r (frame_of ctx f) rc))
     else (- EINVAL, ctx))
  /\
  (left rc + r_width rc < 2 ^ 32 -> top rc + r_height rc < 2 ^ 32 ->
   g2d_s_selection ctx (selection_request f rc) =
     if (0 <=? left rc) && (0 <=? top rc)
        && (left rc + r_width rc <=? W - 1)
        && (top rc + r_height rc <=? H - 1)
     then (0, set_frame ctx f (set_sel_r (frame_of ctx f) rc))
     else (- EINVAL, ctx)).
Proof.
  intros ctx f rc W H HW HH Hl Ht Hw Hh.
  assert (Hexact :
    g2d_s_selection ctx (selection_request f rc) =
      if (0 <=? left rc) && (0 <=? top rc)
         && (left rc <=? W - 1) && (top rc <=? H - 1)
         && (u32 (left rc + r_width rc) <=? W - 1)
         && (u32 (top rc + r_height rc) <=? H - 1)
      then (0, set_frame ctx f (set_sel_r (frame_of ctx f) rc))
      else (- EINVAL, ctx)).
  { unfold g2d_s_selection.
    rewrite g2d_try_selection_exact by assumption. fold W H.
    destruct ((0 <=? left rc) && (0 <=? top rc)
              && (left rc <=? W - 1) && (top rc <=? H - 1)
              && (u32 (left rc + r_width rc) <=? W - 1)
              && (u32 (top rc + r_height rc) <=? H - 1)).
    - destruct f, rc; reflexivity.
    - reflexivity. }
  split; [exact Hexact |].
  intros Hsw Hsh. rewrite Hexact.
  destruct (Z.leb_spec 0 (left rc)) as [Hl0 | Hl0]; [| reflexivity].
  destruct (Z.leb_spec 0 (top rc)) as [Ht0 | Ht0]; [| reflexivity].
  rewrite (u32_small (left rc + r_width rc)),
    (u32_small (top rc + r_height rc)) by lia.
  cbn [andb].
  destruct (Z.leb_spec (left rc + r_width rc) (W - 1)) as [Hr | Hr];
    destruct (Z.leb_spec (top rc + r_height rc) (H - 1)) as [Hb | Hb];
    destruct (Z.leb_spec (left rc) (W - 1));
    destruct (Z.leb_spec (top rc) (H - 1));
    cbn [andb]; try lia; reflexivity.
Qed.

(** The selection [g2d_open] preloads, (200, 120, 400, 240) on 800 by 480,
    is one the setter takes. *)
Lemma g2d_s_selection_accepts_witness :
  g2d_s_selection g2d_open_ctx
    (selection_request DST
       {| left := 200; top := 120; r_width := 400; r_height := 240 |})
  = (0, g2d_open_ctx).
Proof.
  refine (proj1 (g2d_s_selection_accepts g2d_open_ctx DST
                  {| left := 200; top := 120; r_width := 400; r_height := 240 |}
                  _ _ _ _ _ _)).
  all: vm_compute; (split; [discriminate | reflexivity]).
Defined.

(** X8.  Within the range of the two alignment controls, 1..64,
    [g2d_try_ctrl] lets through exactly the powers of two and refuses every
    other value with [-EINVAL]. *)
Theorem g2d_try_ctrl_alignment_power_of_two : forall id val : Z,
  id = V4L2_CID_SUNXI_G2D_IN_ALIGNMENT \/
  id = V4L2_CID_SUNXI_G2D_OUT_ALIGNMENT ->
  1 <= val <= 64 ->
  (g2d_try_ctrl id val = 0 <-> In val [1; 2; 4; 8; 16; 32; 64]) /\
  (g2d_try_ctrl id val = 0 \/ g2d_try_ctrl id val = - EINVAL).
Proof.
  intros id val Hid Hval.
  assert (Hctl : g2d_try_ctrl id val =
                 if negb (Z.land val (val - 1) =? 0) then - EINVAL else 0)
    by (destruct Hid as [-> | ->]; reflexivity).
  rewrite Hctl. clear Hctl Hid id.
  destruct val as [| p | p]; try lia.
  do 7 (try destruct p as [p | p |]); try lia.
  all: cbn.
  all: split; [split |]; intros; auto 10; try discriminate.
  all: repeat match goal with
         | H : _ \/ _ |- _ => destruct H
         | H : False |- _ => contradiction
         | H : Z.pos _ = Z.pos _ |- _ => discriminate H
         end.
Qed.

Lemma g2d_try_ctrl_alignment_power_of_two_witness :
  (g2d_try_ctrl V4L2_CID_SUNXI_G2D_OUT_ALIGNMENT 8 = 0
   <-> In 8 [1; 2; 4; 8; 16; 32; 64]) /\
  (g2d_try_ctrl V4L2_CID_SUNXI_G2D_OUT_ALIGNMENT 8 = 0 \/
   g2d_try_ctrl V4L2_CID_SUNXI_G2D_OUT_ALIGNMENT 8 = - EINVAL).
Proof.
  apply (g2d_try_ctrl_alignment_power_of_two
           V4L2_CID_SUNXI_G2D_OUT_ALIGNMENT 8); [right; reflexivity | lia].
Defined.

(** ** Formats: set, get, enumerate *)

Lemma get_frame_queue_type (f : frame_id) : get_frame (queue_type f) = inl f.
Proof. destruct f; reflexivity. Qed.

Lemma frame_of_set_frame_same (ctx : sunxi_g2d_ctx) (f : frame_id)
  (frm : g2d_frame) : frame_of (set_frame ctx f frm) f = frm.
Proof. destruct f; reflexivity. Qed.

Lemma frame_of_set_frame_other (ctx : sunxi_g2d_ctx) (f : frame_id)
  (frm : g2d_frame) :
  frame_of (set_frame ctx f frm) (other_frame f) = frame_of ctx (other_frame f).
Proof. destruct f; reflexivity. Qed.

(** [g2d_try_fmt] changes nothing in a format it has already adjusted. *)
Lemma g2d_try_fmt_idempotent (pix pix1 : v4l2_pix_format) (ret : Z) :
  g2d_try_fmt pix = Ok (ret, pix1) -> g2d_try_fmt pix1 = Ok (0, pix1).
Proof.
  intros Htry.
  destruct (Z.eq_dec (pixelformat pix) V4L2_PIX_FMT_XBGR32) as [Hfmt | Hfmt].
  - rewrite (g2d_try_fmt_supported pix Hfmt) in Htry.
    injection Htry as _ <-.
    rewrite g2d_try_fmt_supported by reflexivity. cbn [width height flags].
    set (w := clamp (width pix) G2D_MIN_WIDTH G2D_MAX_WIDTH).
    set (h := clamp (height pix) G2D_MIN_HEIGHT G2D_MAX_HEIGHT).
    assert (Hw : clamp w G2D_MIN_WIDTH G2D_MAX_WIDTH = w)
      by (unfold w, clamp, G2D_MIN_WIDTH, G2D_MAX_WIDTH; lia).
    assert (Hh : clamp h G2D_MIN_HEIGHT G2D_MAX_HEIGHT = h)
      by (unfold h, clamp, G2D_MIN_HEIGHT, G2D_MAX_HEIGHT; lia).
    rewrite Hw, Hh. reflexivity.
  - apply g2d_try_fmt_fault_iff in Hfmt. congruence.
Qed.

(** X10.  Setting a format and reading it back.  A request for the
    supported pixel format on an idle queue returns 0; [g2d_g_fmt] on the
    same queue then returns exactly the format [g2d_s_fmt] handed back,
    whose size lies in 8..2048 each way with [bytesperline = 4 * width] and
    [sizeimage = height * bytesperline], and which [g2d_try_fmt] leaves as
    it is.  The other frame, and the selection, alignment and alpha mode of
    the frame that was set, are unchanged. *)
Theorem g2d_s_fmt_then_g_fmt :
  forall (ctx : sunxi_g2d_ctx) (f : frame_id) (pix pix0 : v4l2_pix_format),
  pixelformat pix = V4L2_PIX_FMT_XBGR32 ->
  exists (pix1 : v4l2_pix_format) (ctx' : sunxi_g2d_ctx),
    g2d_s_fmt ctx (queue_type f) pix false = Ok (0, pix1, ctx') /\
    g2d_g_fmt ctx' (queue_type f) pix0 = (0, pix1) /\
    g2d_try_fmt pix1 = Ok (0, pix1) /\
    8 <= width pix1 <= 2048 /\ 8 <= height pix1 <= 2048 /\
    bytesperline pix1 = 4 * width pix1 /\
    sizeimage pix1 = height pix1 * bytesperline pix1 /\
    frame_of ctx' (other_frame f) = frame_of ctx (other_frame f) /\
    sel (frame_of ctx' f) = sel (frame_of ctx f) /\
    alignment (frame_of ctx' f) = alignment (frame_of ctx f) /\
    alpha_bld_mode (frame_of ctx' f) = alpha_bld_mode (frame_of ctx f).
Proof.
  intros ctx f pix pix0 Hfmt.
  pose proof (g2d_try_fmt_supported pix Hfmt) as Htry.
  assert (Hw : 8 <= clamp (width pix) G2D_MIN_WIDTH G2D_MAX_WIDTH <= 2048)
    by (unfold clamp, G2D_MIN_WIDTH, G2D_MAX_WIDTH; lia).
  assert (Hh : 8 <= clamp (height pix) G2D_MIN_HEIGHT G2D_MAX_HEIGHT <= 2048)
    by (unfold clamp, G2D_MIN_HEIGHT, G2D_MAX_HEIGHT; lia).
  unfold g2d_s_fmt, g2d_g_fmt. rewrite Htry. cbn [negb Z.eqb].
  rewrite get_frame_queue_type. cbn [negb].
  eexists; eexists. split; [reflexivity |].
  rewrite frame_of_set_frame_same, frame_of_set_frame_other.
  cbn [set_pix_fmt v4l2_pix_fmt sel alignment alpha_bld_mode width height
       bytesperline sizeimage].
  repeat split; try lia.
  eapply g2d_try_fmt_idempotent. exact Htry.
Qed.

Lemma g2d_s_fmt_then_g_fmt_witness :
  exists (pix1 : v4l2_pix_format) (ctx' : sunxi_g2d_ctx),
    g2d_s_fmt g2d_open_ctx (queue_type DST) (xbgr32_request 4000 4 1) false
      = Ok (0, pix1, ctx') /\
    g2d_g_fmt ctx' (queue_type DST) (xbgr32_request 0 0 0) = (0, pix1) /\
    g2d_try_fmt pix1 = Ok (0, pix1) /\
    8 <= width pix1 <= 2048 /\ 8 <= height pix1 <= 2048 /\
    bytesperline pix1 = 4 * width pix1 /\
    sizeimage pix1 = height pix1 * bytesperline pix1 /\
    frame_of ctx' (other_frame DST) = frame_of g2d_open_ctx (other_frame DST) /\
    sel (frame_of ctx' DST) = sel (frame_of g2d_open_ctx DST) /\
    alignment (frame_of ctx' DST) = alignment (frame_of g2d_open_ctx DST) /\
    alpha_bld_mode (frame_of ctx' DST)
      = alpha_bld_mode (frame_of g2d_open_ctx DST).
Proof.
  apply (g2d_s_fmt_then_g_fmt g2d_open_ctx DST (xbgr32_request 4000 4 1)
           (xbgr32_request 0 0 0)).
  reflexivity.
Defined.

(** X11.  The outcomes of [g2d_s_fmt].  It faults exactly on a pixel format
    other than XBGR32.  Otherwise it returns 0 exactly when the buffer type
    is one of the two queues and the queue is not busy; a bad type gives
    [-EINVAL], a busy queue [-EBUSY], and in both cases the context is left
    as it was. *)
Theorem g2d_s_fmt_outcomes :
  forall (ctx : sunxi_g2d_ctx) (type : Z) (pix : v4l2_pix_format)
         (busy : bool),
  match g2d_s_fmt ctx type pix busy with
  | Fault e => e = NullPointer /\ pixelformat pix <> V4L2_PIX_FMT_XBGR32
  | Ok (ret, pix1, ctx') =>
      pixelformat pix = V4L2_PIX_FMT_XBGR32 /\
      (ret = 0 <->
         (type = V4L2_BUF_TYPE_VIDEO_OUTPUT \/
          type = V4L2_BUF_TYPE_VIDEO_CAPTURE) /\ busy = false) /\
      (ret <> 0 ->
         ctx' = ctx /\
         ret = (if (type =? V4L2_BUF_TYPE_VIDEO_OUTPUT)
                   || (type =? V4L2_BUF_TYPE_VIDEO_CAPTURE)
                then - EBUSY else - EINVAL))
  end.
Proof.
  intros ctx type pix busy. unfold g2d_s_fmt.
  destruct (Z.eq_dec (pixelformat pix) V4L2_PIX_FMT_XBGR32) as [Hfmt | Hfmt].
  - rewrite (g2d_try_fmt_supported pix Hfmt). cbn [negb Z.eqb].
    unfold get_frame.
    destruct (Z.eqb_spec type V4L2_BUF_TYPE_VIDEO_OUTPUT) as [Ho | Ho];
      [| destruct (Z.eqb_spec type V4L2_BUF_TYPE_VIDEO_CAPTURE) as [Hc | Hc]];
      try destruct busy; cbn [orb].
    all: split; [exact Hfmt |]; split; [split; intros H | intros H].
    all: first
           [ solve [vm_compute in H; discriminate H]
           | solve [exfalso; apply H; reflexivity]
           | solve [split; reflexivity]
           | solve [split; [auto | reflexivity]]
           | solve [destruct H as [[Ht | Ht] Hb];
                    first [discriminate Hb | contradiction] ] ].
  - pose proof (proj2 (g2d_try_fmt_fault_iff pix) Hfmt) as Hfault.
    rewrite Hfault. split; [reflexivity | exact Hfmt].
Qed.

(** Every entry of a table is found again by the loop of [find_fmt] when it
    is asked for that entry's fourcc. *)
Lemma find_fmt_in_nth (fmts : list g2d_fmt) (i : nat) (d : g2d_fmt)
  (pix : v4l2_pix_format) :
  (i < length fmts)%nat ->
  pixelformat pix = fourcc (nth i fmts d) ->
  exists f, find_fmt_in fmts pix = Some f /\ In f fmts /\
            fourcc f = pixelformat pix.
Proof.
  intros Hi Hpf.
  apply (find_fmt_in_match fmts pix (nth i fmts d)).
  - apply nth_In. exact Hi.
  - symmetry. exact Hpf.
Qed.

(** X12.  [g2d_enum_fmt] succeeds exactly on the indices below the size of
    the catalogue and fails with [-EINVAL], leaving [pixelformat] alone,
    on the others.  A pixel format it reports is one [find_fmt] finds, and
    [g2d_try_fmt] takes a request for it, at any size, without fault and
    without replacing the pixel format. *)
Theorem g2d_enum_fmt_reports_supported :
  forall index pixelformat0 w h fl : Z,
  0 <= index ->
  (fst (g2d_enum_fmt index pixelformat0) = 0 <-> index < NUM_SUPPORTED_FMTS) /\
  (fst (g2d_enum_fmt index pixelformat0) = 0 ->
   let pix := {| width := w; height := h;
                 pixelformat := snd (g2d_enum_fmt index pixelformat0);
                 bytesperline := 0; sizeimage := 0; flags := fl |} in
   (exists fmt, find_fmt pix = Some fmt /\ In fmt g2d_supported_fmts /\
                fourcc fmt = pixelformat pix) /\
   (exists pix1, g2d_try_fmt pix = Ok (0, pix1) /\
                 pixelformat pix1 = pixelformat pix)) /\
  (fst (g2d_enum_fmt index pixelformat0) <> 0 ->
   g2d_enum_fmt index pixelformat0 = (- EINVAL, pixelformat0)).
Proof.
  intros index pixelformat0 w h fl Hidx. unfold g2d_enum_fmt.
  destruct (Z.ltb_spec index NUM_SUPPORTED_FMTS) as [Hlt | Hge]; cbn [fst snd].
  - split; [split; auto |]. split; [| intros H; contradiction].
    intros _.
    match goal with
    | |- (exists fmt, find_fmt ?q = _ /\ _ /\ _) /\ _ => set (pix := q)
    end.
    assert (Hfind : exists fmt, find_fmt pix = Some fmt /\
                                In fmt g2d_supported_fmts /\
                                fourcc fmt = pixelformat pix).
    { apply (find_fmt_in_nth g2d_supported_fmts (Z.to_nat index)
               (Build_g2d_fmt 0 0 0) pix); [| reflexivity].
      unfold NUM_SUPPORTED_FMTS in Hlt. lia. }
    split; [exact Hfind |].
    destruct Hfind as (fmt & Hfmt & _ & _).
    assert (Hpf : pixelformat pix = V4L2_PIX_FMT_XBGR32).
    { rewrite find_fmt_shipped in Hfmt.
      destruct (Z.eqb_spec V4L2_PIX_FMT_XBGR32 (pixelformat pix));
        [congruence | discriminate]. }
    rewrite (g2d_try_fmt_supported pix Hpf).
    eexists. split; [reflexivity |]. cbn [pixelformat]. symmetry. exact Hpf.
  - split; [split; [intros H; vm_compute in H; discriminate H | lia] |].
    split; [intros H; vm_compute in H; discriminate H | reflexivity].
Qed.

Lemma g2d_enum_fmt_reports_supported_witness :
  (fst (g2d_enum_fmt 0 0) = 0 <-> 0 < NUM_SUPPORTED_FMTS) /\
  (fst (g2d_enum_fmt 0 0) = 0 ->
   let pix := {| width := 800; height := 480;
                 pixelformat := snd (g2d_enum_fmt 0 0);
                 bytesperline := 0; sizeimage := 0; flags := 0 |} in
   (exists fmt, find_fmt pix = Some fmt /\ In fmt g2d_supported_fmts /\
                fourcc fmt = pixelformat pix) /\
   (exists pix1, g2d_try_fmt pix = Ok (0, pix1) /\
                 pixelformat pix1 = pixelformat pix)) /\
  (fst (g2d_enum_fmt 0 0) <> 0 -> g2d_enum_fmt 0 0 = (- EINVAL, 0)).
Proof. apply (g2d_enum_fmt_reports_supported 0 0 800 480 0). lia. Defined.

(** ** Selections: set and get *)

(** X13.  Setting a selection and reading it back.  When [g2d_s_selection]
    returns 0, [g2d_g_selection] on the same queue and target returns the
    rectangle that was set; the frame's pixel format and the other frame
    are unchanged, and the same request would be accepted again. *)
Theorem g2d_s_selection_then_g_selection :
  forall (ctx : sunxi_g2d_ctx) (f : frame_id) (rc rc0 : v4l2_rect),
  fst (g2d_s_selection ctx (selection_request f rc)) = 0 ->
  let ctx' := snd (g2d_s_selection ctx (selection_request f rc)) in
  g2d_g_selection ctx' (selection_request f rc0) = (0, rc) /\
  v4l2_pix_fmt (frame_of ctx' f) = v4l2_pix_fmt (frame_of ctx f) /\
  frame_of ctx' (other_frame f) = frame_of ctx (other_frame f) /\
  g2d_try_selection ctx' (selection_request f rc) = 0.
Proof.
  intros ctx f rc rc0. unfold g2d_s_selection.
  destruct (Z.eqb_spec (g2d_try_selection ctx (selection_request f rc)) 0)
    as [Hok | Hbad]; cbn [negb fst snd].
  - intros _.
    assert (Hget : get_frame (sel_type (selection_request f rc)) = inl f)
      by (destruct f; reflexivity).
    rewrite Hget. cbn [snd].
    split; [destruct f, rc; reflexivity |].
    split; [destruct f; reflexivity |].
    split; [destruct f; reflexivity |].
    rewrite <- Hok. destruct f; reflexivity.
  - intros H. contradiction.
Qed.

Lemma g2d_s_selection_then_g_selection_witness :
  let rc := {| left := 10; top := 20; r_width := 300; r_height := 200 |} in
  let ctx' := snd (g2d_s_selection g2d_open_ctx (selection_request DST rc)) in
  g2d_g_selection ctx' (selection_request DST (full_frame 0 0)) = (0, rc) /\
  v4l2_pix_fmt (frame_of ctx' DST) = v4l2_pix_fmt (frame_of g2d_open_ctx DST) /\
  frame_of ctx' (other_frame DST) = frame_of g2d_open_ctx (other_frame DST) /\
  g2d_try_selection ctx' (selection_request DST rc) = 0.
Proof.
  apply (g2d_s_selection_then_g_selection g2d_open_ctx DST
           {| left := 10; top := 20; r_width := 300; r_height := 200 |}
           (full_frame 0 0)).
  reflexivity.
Defined.

(** ** Buffers *)

(** X14.  A buffer size [g2d_queue_setup] lets through is one
    [g2d_buf_prepare] accepts: when [g2d_queue_setup] returns 0 the size it
    leaves in [sizes[0]] is at least the frame's [sizeimage], and
    [g2d_buf_prepare] on a plane of that size returns 0 with the payload set
    to [sizeimage].  When it fails it returns [-EINVAL] and has changed
    neither [*nplanes] nor [sizes[0]]. *)
Theorem g2d_queue_setup_then_buf_prepare :
  forall (ctx : sunxi_g2d_ctx) (type nplanes sizes0 : Z),
  let '(ret, nplanes', sizes0') := g2d_queue_setup ctx type nplanes sizes0 in
  (ret = 0 ->
   exists f, get_frame type = inl f /\
     sizeimage (v4l2_pix_fmt (frame_of ctx f)) <= sizes0' /\
     (nplanes = 0 -> nplanes' = 1 /\
                     sizes0' = sizeimage (v4l2_pix_fmt (frame_of ctx f))) /\
     g2d_buf_prepare ctx type sizes0'
       = (0, Some (sizeimage (v4l2_pix_fmt (frame_of ctx f))))) /\
  (ret <> 0 -> ret = - EINVAL /\ nplanes' = nplanes /\ sizes0' = sizes0 /\
               fst (g2d_buf_prepare ctx type sizes0) = - EINVAL).
Proof.
  intros ctx type nplanes sizes0.
  unfold g2d_queue_setup, g2d_buf_prepare.
  destruct (get_frame type) as [f | e] eqn:Hget.
  - destruct (Z.eqb_spec nplanes 0) as [Hnp | Hnp]; cbn [negb].
    + split; [| intros H; contradiction].
      intros _. exists f. split; [reflexivity |].
      rewrite Z.ltb_irrefl. repeat split; lia.
    + destruct (Z.ltb_spec sizes0 (sizeimage (v4l2_pix_fmt (frame_of ctx f))))
        as [Hlt | Hge].
      * split; [intros H; vm_compute in H; discriminate H |].
        intros _. repeat split.
      * split; [| intros H; contradiction].
        intros _. exists f. split; [reflexivity |].
        split; [lia |]. split; [intros H; contradiction |].
        rewrite (proj2 (Z.ltb_ge _ _) Hge). reflexivity.
  - assert (He : e = - EINVAL).
    { unfold get_frame in Hget.
      destruct (type =? V4L2_BUF_TYPE_VIDEO_OUTPUT); [discriminate |].
      destruct (type =? V4L2_BUF_TYPE_VIDEO_CAPTURE); [discriminate |].
      congruence. }
    subst e.
    split; [intros H; vm_compute in H; discriminate H |].
    intros _. repeat split.
Qed.

(** ** Controls *)







(** ** Queue clean-up and streaming *)

Lemma g2d_queue_cleanup_output (state : vb2_buffer_state) (type : Z) :
  V4L2_TYPE_IS_OUTPUT type = true ->
  forall (q : list Z) (fuel : nat) (cap : list Z)
         (back : list (Z * vb2_buffer_state)),
  (length q < fuel)%nat ->
  g2d_queue_cleanup fuel type state
    {| out_rdy := q; cap_rdy := cap; handed_back := back |}
  = Some {| out_rdy := []; cap_rdy := cap;
            handed_back := rev (map (fun b => (b, state)) q) ++ back |}.
Proof.
  intros Hout q. induction q as [| b q IH]; intros fuel cap back Hfuel.
  - destruct fuel as [| fuel]; [cbn in Hfuel; lia |].
    cbn [g2d_queue_cleanup]. rewrite Hout. reflexivity.
  - destruct fuel as [| fuel]; [cbn in Hfuel; lia |].
    cbn [g2d_queue_cleanup]. rewrite Hout.
    cbn [v4l2_m2m_src_buf_remove out_rdy cap_rdy handed_back
         v4l2_m2m_buf_done].
    unfold v4l2_m2m_buf_done. cbn [out_rdy cap_rdy handed_back].
    rewrite IH by (cbn in Hfuel; lia).
    cbn [map rev]. rewrite <- app_assoc. reflexivity.
Qed.

Lemma g2d_queue_cleanup_capture (state : vb2_buffer_state) (type : Z) :
  V4L2_TYPE_IS_OUTPUT type = false ->
  forall (q : list Z) (fuel : nat) (out : list Z)
         (back : list (Z * vb2_buffer_state)),
  (length q < fuel)%nat ->
  g2d_queue_cleanup fuel type state
    {| out_rdy := out; cap_rdy := q; handed_back := back |}
  = Some {| out_rdy := out; cap_rdy := [];
            handed_back := rev (map (fun b => (b, state)) q) ++ back |}.
Proof.
  intros Hout q. induction q as [| b q IH]; intros fuel out back Hfuel.
  - destruct fuel as [| fuel]; [cbn in Hfuel; lia |].
    cbn [g2d_queue_cleanup]. rewrite Hout. reflexivity.
  - destruct fuel as [| fuel]; [cbn in Hfuel; lia |].
    cbn [g2d_queue_cleanup]. rewrite Hout.
    cbn [v4l2_m2m_dst_buf_remove out_rdy cap_rdy handed_back
         v4l2_m2m_buf_done].
    unfold v4l2_m2m_buf_done. cbn [out_rdy cap_rdy handed_back].
    rewrite IH by (cbn in Hfuel; lia).
    cbn [map rev]. rewrite <- app_assoc. reflexivity.
Qed.

(** The queue a buffer type stands for in [g2d_queue_cleanup]. *)
Lemma g2d_queue_cleanup_run (fuel : nat) (type : Z)
  (state : vb2_buffer_state) (m : v4l2_m2m_ctx) :
  let out := V4L2_TYPE_IS_OUTPUT type in
  let q := if out then out_rdy m else cap_rdy m in
  (length q < fuel)%nat ->
  g2d_queue_cleanup fuel type state m
  = Some {| out_rdy := if out then [] else out_rdy m;
            cap_rdy := if out then cap_rdy m else [];
            handed_back :=
              rev (map (fun b => (b, state)) q) ++ handed_back m |}.
Proof.
  intros out q Hfuel. subst out q. destruct m as [o c back].
  cbn [out_rdy cap_rdy handed_back] in *.
  destruct (V4L2_TYPE_IS_OUTPUT type) eqn:Hout.
  - apply g2d_queue_cleanup_output; assumption.
  - apply g2d_queue_cleanup_capture; assumption.
Qed.

(** X16.  [g2d_stop_streaming]'s clean-up loop ends after one more
    iteration than the queue has buffers.  It leaves that queue empty, hands
    every buffer that was on it back in state [VB2_BUF_STATE_ERROR], oldest
    first, and leaves the other queue and the buffers handed back earlier
    as they were. *)
Theorem g2d_stop_streaming_returns_all :
  forall (fuel : nat) (type : Z) (m : v4l2_m2m_ctx),
  let out := V4L2_TYPE_IS_OUTPUT type in
  let q := if out then out_rdy m else cap_rdy m in
  (length q < fuel)%nat ->
  exists m' : v4l2_m2m_ctx,
    g2d_stop_streaming fuel type m = Some m' /\
    (if out then out_rdy m' else cap_rdy m') = [] /\
    (if out then cap_rdy m' = cap_rdy m else out_rdy m' = out_rdy m) /\
    rev (handed_back m')
      = rev (handed_back m) ++ map (fun b => (b, VB2_BUF_STATE_ERROR)) q.
Proof.
  intros fuel type m out q Hfuel. unfold g2d_stop_streaming.
  rewrite g2d_queue_cleanup_run by exact Hfuel. fold out. fold q.
  eexists. split; [reflexivity |].
  cbn [out_rdy cap_rdy handed_back].
  rewrite rev_app_distr, rev_involutive.
  destruct out; repeat split.
Qed.

Lemma g2d_stop_streaming_returns_all_witness :
  let m := {| out_rdy := [7; 9]; cap_rdy := [3]; handed_back := [] |} in
  exists m' : v4l2_m2m_ctx,
    g2d_stop_streaming 3 V4L2_BUF_TYPE_VIDEO_OUTPUT m = Some m' /\
    out_rdy m' = [] /\
    cap_rdy m' = cap_rdy m /\
    rev (handed_back m')
      = rev (handed_back m)
        ++ map (fun b => (b, VB2_BUF_STATE_ERROR)) [7; 9].
Proof.
  apply (g2d_stop_streaming_returns_all 3 V4L2_BUF_TYPE_VIDEO_OUTPUT
           {| out_rdy := [7; 9]; cap_rdy := [3]; handed_back := [] |}).
  cbn. lia.
Defined.

(** X17.  [g2d_start_streaming] returns 0 on the capture queue and what
    [pm_runtime_resume_and_get] returned on the output queue.  Only when
    that value is negative does it touch the buffers: every buffer of the
    output queue is handed back in state [VB2_BUF_STATE_QUEUED], oldest
    first, and the queue is left empty. *)
Theorem g2d_start_streaming_failure_requeues :
  forall (fuel : nat) (type resume_ret : Z) (m : v4l2_m2m_ctx),
  (length (out_rdy m) < fuel)%nat ->
  exists (ret : Z) (m' : v4l2_m2m_ctx),
    g2d_start_streaming fuel type resume_ret m = Some (ret, m') /\
    ret = (if V4L2_TYPE_IS_OUTPUT type then resume_ret else 0) /\
    cap_rdy m' = cap_rdy m /\
    (if V4L2_TYPE_IS_OUTPUT type && (resume_ret <? 0)
     then out_rdy m' = [] /\
          rev (handed_back m')
            = rev (handed_back m)
              ++ map (fun b => (b, VB2_BUF_STATE_QUEUED)) (out_rdy m)
     else m' = m).
Proof.
  intros fuel type resume_ret m Hfuel. unfold g2d_start_streaming.
  destruct (V4L2_TYPE_IS_OUTPUT type) eqn:Hout; cbn [andb].
  - destruct (resume_ret <? 0).
    + rewrite g2d_queue_cleanup_run by (rewrite Hout; exact Hfuel).
      rewrite Hout.
      eexists; eexists. split; [reflexivity |].
      cbn [out_rdy cap_rdy handed_back].
      rewrite rev_app_distr, rev_involutive. repeat split.
    + eexists; eexists. split; [reflexivity |]. repeat split.
  - eexists; eexists. split; [reflexivity |]. repeat split.
Qed.

Lemma g2d_start_streaming_failure_requeues_witness :
  let m := {| out_rdy := [7; 9]; cap_rdy := [3]; handed_back := [] |} in
  exists (ret : Z) (m' : v4l2_m2m_ctx),
    g2d_start_streaming 3 V4L2_BUF_TYPE_VIDEO_OUTPUT (-5) m = Some (ret, m') /\
    ret = -5 /\
    cap_rdy m' = cap_rdy m /\
    (out_rdy m' = [] /\
     rev (handed_back m')
       = rev (handed_back m)
         ++ map (fun b => (b, VB2_BUF_STATE_QUEUED)) (out_rdy m)).
Proof.
  apply (g2d_start_streaming_failure_requeues 3 V4L2_BUF_TYPE_VIDEO_OUTPUT
           (-5) {| out_rdy := [7; 9]; cap_rdy := [3]; handed_back := [] |}).
  cbn. lia.
Defined.

(** ** Clock gates, reset and runtime power management *)

Section PowerProperties.

Context {regs_h : sunxi_g2d_regs}.

Lemma lor_idem_mask (x m : Z) : Z.lor (Z.lor x m) m = Z.lor x m.
Proof. rewrite <- Z.lor_assoc, Z.lor_diag. reflexivity. Qed.

(** X18.  The block-level gates.  [g2d_hw_close] leaves the two clock-gate
    registers and the reset register at 0 whatever they held, and
    [g2d_hw_open] after it leaves in each exactly its mixer and rotation
    bits; [g2d_hw_reset] leaves in the reset register exactly the two reset
    bits, whatever it held before.  None of the three changes any other
    register. *)
Theorem g2d_hw_gates :
  forall g : sunxi_g2d,
  exists g1 g2 g3 : sunxi_g2d,
    g2d_hw_close g = Ok (tt, g1) /\
    g2d_hw_open g1 = Ok (tt, g2) /\
    g2d_hw_reset g = Ok (tt, g3) /\
    (base g1 G2D_SCLK_GATE = 0 /\ base g1 G2D_HCLK_GATE = 0 /\
     base g1 G2D_AHB_RESET = 0) /\
    (base g2 G2D_SCLK_GATE
       = u32 (Z.lor G2D_SCLK_GATE_MIXER G2D_SCLK_GATE_ROT) /\
     base g2 G2D_HCLK_GATE
       = u32 (Z.lor G2D_HCLK_GATE_MIXER G2D_HCLK_GATE_ROT) /\
     base g2 G2D_AHB_RESET
       = u32 (Z.lor G2D_AHB_MIXER_RESET G2D_AHB_ROT_RESET)) /\
    base g3 G2D_AHB_RESET
      = u32 (Z.lor G2D_AHB_MIXER_RESET G2D_AHB_ROT_RESET) /\
    (forall r, r <> G2D_SCLK_GATE -> r <> G2D_HCLK_GATE ->
               r <> G2D_AHB_RESET ->
               base g1 r = base g r /\ base g2 r = base g r /\
               base g3 r = base g r).
Proof.
  intros g. unfold g2d_hw_close, g2d_hw_open, g2d_hw_reset. io_run.
  eexists; eexists; eexists.
  split; [reflexivity |]. split; [reflexivity |]. split; [reflexivity |].
  assert (Hz : forall m, u32 (Z.lor (u32 (u32 0)) (u32 m)) = u32 m).
  { intros m. change (u32 (u32 0)) with 0. rewrite Z.lor_0_l. apply u32_idem. }
  split; [repeat split; read_reg; reflexivity |].
  split.
  { repeat split; unfold readl; read_reg; apply Hz. }
  split.
  { unfold readl; read_reg. apply Hz. }
  intros r H1 H2 H3. repeat split.
  all: repeat rewrite base_writel_other by assumption; reflexivity.
Qed.

(** X19.  [sunxi_g2d_runtime_resume] returns 0 exactly when all five
    framework calls succeed; it then holds the reset line, the exclusive
    rate and the three clocks and has run [g2d_hw_open].  When a call fails
    it returns that call's value, has given back, newest first, everything
    taken before the failure, holds nothing, and has not touched the
    device. *)
Theorem sunxi_g2d_runtime_resume_unwinds :
  forall (o : resume_returns) (p : platform),
  exists (ret : Z) (p' : platform) (new : list (pm_call * Z)),
    sunxi_g2d_runtime_resume o p = Ok (ret, p') /\
    pm_calls p' = new ++ pm_calls p /\
    (ret = 0 <->
       ret_deassert o = 0 /\ ret_set_rate o = 0 /\ ret_bus o = 0 /\
       ret_mod o = 0 /\ ret_ram o = 0) /\
    (ret <> 0 ->
       In ret [ret_deassert o; ret_set_rate o; ret_bus o; ret_mod o;
               ret_ram o] /\
       held_after (rev new) [] = Some [] /\
       g2d_dev p' = g2d_dev p) /\
    (ret = 0 ->
       held_after (rev new) []
         = Some [ResClk ram_clk; ResClk mod_clk; ResClk bus_clk;
                 ResRate mod_clk; ResReset] /\
       g2d_hw_open (g2d_dev p) = Ok (tt, g2d_dev p')).
Proof.
  intros o p. unfold sunxi_g2d_runtime_resume.
  destruct (Z.eqb_spec (ret_deassert o) 0) as [E1 | N1]; cbn [negb].
  2:{ exists (ret_deassert o), (pm_do reset_control_deassert (ret_deassert o) p),
        [(reset_control_deassert, ret_deassert o)].
      split; [reflexivity |]. split; [reflexivity |].
      split; [split; [intros H; contradiction | intros (H & _); contradiction] |].
      split; [| intros H; contradiction].
      intros _. split; [cbn; auto |]. split; [| reflexivity].
      cbn. rewrite (proj2 (Z.eqb_neq _ _) N1). reflexivity. }
  destruct (Z.eqb_spec (ret_set_rate o) 0) as [E2 | N2]; cbn [negb].
  2:{ eexists; eexists.
      exists [(reset_control_assert, 0);
              (clk_set_rate_exclusive mod_clk 300000000, ret_set_rate o);
              (reset_control_deassert, ret_deassert o)].
      split; [reflexivity |]. split; [reflexivity |].
      split; [split; [intros H; contradiction
                     | intros (_ & H & _); contradiction] |].
      split; [| intros H; contradiction].
      intros _. split; [cbn; auto |]. split; [| reflexivity].
      cbn. rewrite E1, (proj2 (Z.eqb_neq _ _) N2). reflexivity. }
  destruct (Z.eqb_spec (ret_bus o) 0) as [E3 | N3]; cbn [negb].
  2:{ eexists; eexists.
      exists [(reset_control_assert, 0);
              (clk_rate_exclusive_put mod_clk, 0);
              (clk_prepare_enable bus_clk, ret_bus o);
              (clk_set_rate_exclusive mod_clk 300000000, ret_set_rate o);
              (reset_control_deassert, ret_deassert o)].
      split; [reflexivity |]. split; [reflexivity |].
      split; [split; [intros H; contradiction
                     | intros (_ & _ & H & _); contradiction] |].
      split; [| intros H; contradiction].
      intros _. split; [cbn; auto |]. split; [| reflexivity].
      cbn. rewrite E1, E2, (proj2 (Z.eqb_neq _ _) N3). reflexivity. }
  destruct (Z.eqb_spec (ret_mod o) 0) as [E4 | N4]; cbn [negb].
  2:{ eexists; eexists.
      exists [(reset_control_assert, 0);
              (clk_rate_exclusive_put mod_clk, 0);
              (clk_disable_unprepare bus_clk, 0);
              (clk_prepare_enable mod_clk, ret_mod o);
              (clk_prepare_enable bus_clk, ret_bus o);
              (clk_set_rate_exclusive mod_clk 300000000, ret_set_rate o);
              (reset_control_deassert, ret_deassert o)].
      split; [reflexivity |]. split; [reflexivity |].
      split; [split; [intros H; contradiction
                     | intros (_ & _ & _ & H & _); contradiction] |].
      split; [| intros H; contradiction].
      intros _. split; [cbn; auto 6 |]. split; [| reflexivity].
      cbn. rewrite E1, E2, E3, (proj2 (Z.eqb_neq _ _) N4). reflexivity. }
  destruct (Z.eqb_spec (ret_ram o) 0) as [E5 | N5]; cbn [negb].
  2:{ eexists; eexists.
      exists [(reset_control_assert, 0);
              (clk_rate_exclusive_put mod_clk, 0);
              (clk_disable_unprepare bus_clk, 0);
              (clk_disable_unprepare mod_clk, 0);
              (clk_prepare_enable ram_clk, ret_ram o);
              (clk_prepare_enable mod_clk, ret_mod o);
              (clk_prepare_enable bus_clk, ret_bus o);
              (clk_set_rate_exclusive mod_clk 300000000, ret_set_rate o);
              (reset_control_deassert, ret_deassert o)].
      split; [reflexivity |]. split; [reflexivity |].
      split; [split; [intros H; contradiction
                     | intros (_ & _ & _ & _ & H); contradiction] |].
      split; [| intros H; contradiction].
      intros _. split; [cbn; auto 7 |]. split; [| reflexivity].
      cbn. rewrite E1, E2, E3, E4, (proj2 (Z.eqb_neq _ _) N5). reflexivity. }
  unfold g2d_hw_open. io_run. cbn [g2d_dev pm_do pm_calls].
  eexists; eexists.
  exists [(clk_prepare_enable ram_clk, ret_ram o);
          (clk_prepare_enable mod_clk, ret_mod o);
          (clk_prepare_enable bus_clk, ret_bus o);
          (clk_set_rate_exclusive mod_clk 300000000, ret_set_rate o);
          (reset_control_deassert, ret_deassert o)].
  split; [reflexivity |]. split; [reflexivity |].
  split; [split; auto |].
  split; [intros H; contradiction |].
  intros _. split; [| reflexivity].
  cbn. rewrite E1, E2, E3, E4, E5. reflexivity.
Qed.


(** X20.  A successful [sunxi_g2d_runtime_resume] followed by
    [sunxi_g2d_runtime_suspend]: the suspend gives back the three clocks,
    the exclusive rate and the reset line in the reverse of the order they
    were taken, so that nothing is held at the end; the two clock-gate
    registers and the reset register read 0, and every other register is as
    it was before the resume. *)
Theorem sunxi_g2d_runtime_suspend_balances_resume :
  forall p : platform,
  exists (p1 p2 : platform) (new : list (pm_call * Z)),
    sunxi_g2d_runtime_resume resume_all_ok p = Ok (0, p1) /\
    sunxi_g2d_runtime_suspend p1 = Ok (0, p2) /\
    pm_calls p2 = new ++ pm_calls p /\
    held_after (rev new) [] = Some [] /\
    map fst (rev new)
      = [reset_control_deassert;
         clk_set_rate_exclusive mod_clk 300000000;
         clk_prepare_enable bus_clk; clk_prepare_enable mod_clk;
         clk_prepare_enable ram_clk;
         clk_disable_unprepare ram_clk; clk_disable_unprepare mod_clk;
         clk_disable_unprepare bus_clk; clk_rate_exclusive_put mod_clk;
         reset_control_assert] /\
    base (g2d_dev p2) G2D_SCLK_GATE = 0 /\
    base (g2d_dev p2) G2D_HCLK_GATE = 0 /\
    base (g2d_dev p2) G2D_AHB_RESET = 0 /\
    (forall r, r <> G2D_SCLK_GATE -> r <> G2D_HCLK_GATE ->
               r <> G2D_AHB_RESET ->
               base (g2d_dev p2) r = base (g2d_dev p) r).
Proof.
  intros p.
  unfold sunxi_g2d_runtime_resume, sunxi_g2d_runtime_suspend, resume_all_ok.
  cbn [ret_deassert ret_set_rate ret_bus ret_mod ret_ram Z.eqb negb].
  unfold g2d_hw_open, g2d_hw_close. io_run.
  cbn [g2d_dev pm_do pm_calls].
  eexists; eexists.
  exists [(reset_control_assert, 0);
          (clk_rate_exclusive_put mod_clk, 0);
          (clk_disable_unprepare bus_clk, 0);
          (clk_disable_unprepare mod_clk, 0);
          (clk_disable_unprepare ram_clk, 0);
          (clk_prepare_enable ram_clk, 0);
          (clk_prepare_enable mod_clk, 0);
          (clk_prepare_enable bus_clk, 0);
          (clk_set_rate_exclusive mod_clk 300000000, 0);
          (reset_control_deassert, 0)].
  split; [reflexivity |]. split; [reflexivity |].
  cbn [g2d_dev pm_calls].
  split; [reflexivity |]. split; [reflexivity |]. split; [reflexivity |].
  split; [read_reg; reflexivity |].
  split; [read_reg; reflexivity |].
  split; [read_reg; reflexivity |].
  intros r H1 H2 H3. cbn [g2d_dev pm_do].
  repeat rewrite base_writel_other by assumption. reflexivity.
Qed.

End PowerProperties.

(** ** Running a job *)

(** X21.  The operation control decides what a job does.  After it is set
    to 0 the job is ready exactly when a destination buffer is, and
    [g2d_device_run] is the rectangle fill on the destination address, the
    source address playing no part.  After it is set to any other value the
    job is always reported ready and [g2d_device_run] makes no register
    access at all: the engine is not started. *)
Theorem g2d_op_select_decides_run :
  forall (regs_h : sunxi_g2d_regs) (CONFIG_ARCH_DMA_ADDR_T_64BIT : bool)
         (ctx : sunxi_g2d_ctx) (val n src_addr dst_addr : Z) (g : sunxi_g2d),
  let ctx' := snd (g2d_s_ctrl ctx (op_select_ctrl val)) in
  fst (g2d_s_ctrl ctx (op_select_ctrl val)) = 0 /\
  (val = 0 ->
     (g2d_job_ready ctx' n = 1 <-> 1 <= n) /\
     (g2d_job_ready ctx' n = 0 <-> n < 1) /\
     g2d_device_run CONFIG_ARCH_DMA_ADDR_T_64BIT ctx' src_addr dst_addr g
       = g2d_rectfill CONFIG_ARCH_DMA_ADDR_T_64BIT ctx (dst_addr, 0, 0) g) /\
  (val <> 0 ->
     g2d_job_ready ctx' n = 1 /\
     g2d_device_run CONFIG_ARCH_DMA_ADDR_T_64BIT ctx' src_addr dst_addr g
       = Ok (tt, g)).
Proof.
  intros regs_h cfg ctx val n src_addr dst_addr g ctx'. subst ctx'.
  split; [reflexivity |].
  change (snd (g2d_s_ctrl ctx (op_select_ctrl val)))
    with {| src := src ctx; dst := dst ctx;
            rectfill_color := rectfill_color ctx;
            rectfill_color_alpha := rectfill_color_alpha ctx;
            chosen_g2d_op := g2d_op_of val |}.
  unfold g2d_job_ready, g2d_device_run, g2d_op_of.
  cbn [chosen_g2d_op].
  destruct (Z.eqb_spec val 0) as [E | N].
  - split; [| intros H; contradiction]. intros _.
    destruct (Z.ltb_spec n 1).
    + repeat split; try lia; intros H'; discriminate H'.
    + repeat split; try lia; intros H'; discriminate H'.
  - split; [intros H; contradiction |]. intros _. split; reflexivity.
Qed.

(** ** Geometry of the rectangle fill, for every context *)

Lemma ALIGN_u32 (x a : Z) : u32 (ALIGN x a) = ALIGN x a.
Proof. unfold ALIGN. apply land_u32_l. Qed.

Lemma ALIGN_zero (a : Z) : ALIGN 0 a = 0.
Proof.
  unfold ALIGN. rewrite Z.add_0_l, u32_idem.
  apply Z.bits_inj'. intros i Hi.
  rewrite Z.bits_0, Z.land_spec, u32_testbit, not32_testbit by exact Hi.
  destruct (Z.testbit (a - 1) i), (i <? 32); reflexivity.
Qed.

Lemma u32_add3 (a b c : Z) : u32 (a + u32 b + u32 c) = u32 (a + b + c).
Proof.
  unfold u32.
  rewrite Z.add_mod_idemp_r by lia.
  rewrite <- Z.add_assoc, (Z.add_comm (b mod 2 ^ 32)), Z.add_assoc.
  rewrite Z.add_mod_idemp_r by lia.
  f_equal. lia.
Qed.

(** X22.  What [g2d_rectfill] programs as plane geometry, for every context
    and every address triple: on both the layer and the write-back side the
    luma pitch is [ALIGN(4 * frame width, alignment)], the two chroma
    pitches are 0, the plane-0 address is
    [addr[0] + pitch * top + 4 * left] (low 32 bits) and the other two
    plane addresses are [addr[1]] and [addr[2]] (low 32 bits). *)
Theorem g2d_rectfill_geometry :
  forall (regs_h : sunxi_g2d_regs) (CONFIG_ARCH_DMA_ADDR_T_64BIT : bool)
         (ctx : sunxi_g2d_ctx) (addr : plane_addrs) (g : sunxi_g2d),
  let frm := dst ctx in
  let pitch := ALIGN (u32 (4 * width (v4l2_pix_fmt frm))) (alignment frm) in
  let addr0 :=
    u32 (addr_0 addr + pitch * top (r (sel frm)) + 4 * left (r (sel frm))) in
  exists g' : sunxi_g2d,
    g2d_rectfill CONFIG_ARCH_DMA_ADDR_T_64BIT ctx addr g = Ok (tt, g') /\
    base g' V0_PITCH0 = pitch /\ base g' WB_PITCH0 = pitch /\
    base g' V0_PITCH1 = 0 /\ base g' WB_PITCH1 = 0 /\
    base g' V0_PITCH2 = 0 /\ base g' WB_PITCH2 = 0 /\
    base g' V0_LADDR0 = addr0 /\ base g' WB_LADD0 = addr0 /\
    base g' V0_LADDR1 = u32 (addr_1 addr) /\
    base g' WB_LADD1 = u32 (addr_1 addr) /\
    base g' V0_LADDR2 = u32 (addr_2 addr) /\
    base g' WB_LADD2 = u32 (addr_2 addr).
Proof.
  intros regs_h cfg ctx addr g frm pitch addr0.
  unfold g2d_rectfill, g2d_vlayer_set, g2d_wb_set, g2d_bld_cs_set.
  rewrite !hw_id_shipped.
  unfold vlayer_set_id, wb_set_id, g2d_bldin_set, bld_cs_set_id, g2d_fc_set,
    g2d_hw_reset, g2d_mixer_irq_enable.
  rewrite vlayer_chroma_packed, wb_chroma_packed by reflexivity.
  change (0 =? 0) with true.
  change (G2D_FORMAT_BGRX8888 <=? G2D_FORMAT_BGRA1010102) with true.
  change (ycnt_of (fmt2yuvcnt G2D_FORMAT_BGRX8888)) with 4.
  change (ucnt_of (fmt2yuvcnt G2D_FORMAT_BGRX8888)) with 0.
  change (vcnt_of (fmt2yuvcnt G2D_FORMAT_BGRX8888)) with 0.
  fold frm. fold pitch.
  destruct (premult_alpha frm), cfg; io_run.
  all: eexists; split; [reflexivity |].
  all: change (u32 (0 * 0)) with 0; rewrite ?ALIGN_zero.
  all: repeat split; read_reg.
  all: rewrite ?land_low32, ?u32_add3, ?ALIGN_u32, ?Z.mul_0_l, ?Z.add_0_r.
  all: try reflexivity.
  all: apply ALIGN_u32.
Qed.

(** ** The fill rectangle and the buffer *)

(** A format [g2d_try_fmt] leaves unchanged is the supported one, with a
    size in 8..2048 and the line and image sizes that follow from it. *)
Lemma g2d_try_fmt_fixed_point (pix : v4l2_pix_format) :
  g2d_try_fmt pix = Ok (0, pix) ->
  pixelformat pix = V4L2_PIX_FMT_XBGR32 /\
  8 <= width pix <= 2048 /\ 8 <= height pix <= 2048 /\
  bytesperline pix = 4 * width pix /\
  sizeimage pix = height pix * (4 * width pix).
Proof.
  intros Hfix.
  destruct (Z.eq_dec (pixelformat pix) V4L2_PIX_FMT_XBGR32) as [Hfmt | Hfmt].
  - rewrite (g2d_try_fmt_supported pix Hfmt) in Hfix.
    injection Hfix as Hpix.
    pose proof (f_equal width Hpix) as Hw.
    pose proof (f_equal height Hpix) as Hh.
    pose proof (f_equal bytesperline Hpix) as Hb.
    pose proof (f_equal sizeimage Hpix) as Hs.
    cbn [width height bytesperline sizeimage] in Hw, Hh, Hb, Hs.
    rewrite Hw in Hb, Hs. rewrite Hh in Hs.
    assert (Hb' : 4 * width pix = bytesperline pix) by exact Hb.
    assert (Hs' : height pix * (4 * width pix) = sizeimage pix) by exact Hs.
    split; [exact Hfmt |].
    unfold clamp, G2D_MIN_WIDTH, G2D_MAX_WIDTH, G2D_MIN_HEIGHT,
      G2D_MAX_HEIGHT in Hw, Hh.
    repeat split; lia.
  - apply g2d_try_fmt_fault_iff in Hfmt. congruence.
Qed.

Lemma ALIGN_pow2_div (n j : Z) :
  0 <= j < 32 -> 0 <= n -> n + 2 ^ j - 1 < 2 ^ 32 ->
  ALIGN n (2 ^ j) = (n + 2 ^ j - 1) / 2 ^ j * 2 ^ j.
Proof.
  intros Hj Hn Hfit.
  assert (Hpj : 0 < 2 ^ j) by (apply Z.pow_pos_nonneg; lia).
  assert (Hones : Z.ones j = 2 ^ j - 1) by (rewrite Z.ones_equiv; lia).
  unfold ALIGN. rewrite <- Hones.
  rewrite (u32_small (Z.ones j)) by lia.
  rewrite (u32_small (n + Z.ones j)) by lia.
  rewrite land_not32_ones by lia.
  rewrite Z.shiftl_mul_pow2, Z.shiftr_div_pow2 by lia.
  rewrite Hones. f_equal. f_equal. lia.
Qed.

(** A multiple of 4 is its own alignment to 1, 2 or 4 bytes. *)
Lemma ALIGN_of_multiple_of_4 (m a : Z) :
  In a [1; 2; 4] -> 0 <= m -> 4 * m + 3 < 2 ^ 32 -> ALIGN (4 * m) a = 4 * m.
Proof.
  intros Ha Hm Hfit.
  destruct Ha as [<- | [<- | [<- | []]]].
  - change (ALIGN (4 * m) 1) with (ALIGN (4 * m) (2 ^ 0)).
    rewrite ALIGN_pow2_div by lia.
    change (2 ^ 0) with 1. rewrite Z.div_1_r. lia.
  - change (ALIGN (4 * m) 2) with (ALIGN (4 * m) (2 ^ 1)).
    rewrite ALIGN_pow2_div by lia.
    change (2 ^ 1) with 2.
    replace (4 * m + 2 - 1) with (1 + (2 * m) * 2) by lia.
    rewrite Z.div_add by lia. change (1 / 2) with 0. lia.
  - change (ALIGN (4 * m) 4) with (ALIGN (4 * m) (2 ^ 2)).
    rewrite ALIGN_pow2_div by lia.
    change (2 ^ 2) with 4.
    replace (4 * m + 4 - 1) with (3 + m * 4) by lia.
    rewrite Z.div_add by lia. change (3 / 4) with 0. lia.
Qed.

(** The plane-0 registers after [g2d_rectfill]. *)
Lemma g2d_rectfill_plane0
  (regs_h : sunxi_g2d_regs) (CONFIG_ARCH_DMA_ADDR_T_64BIT : bool)
  (ctx : sunxi_g2d_ctx) (addr : plane_addrs) (g : sunxi_g2d) :
  let frm := dst ctx in
  let pitch := ALIGN (u32 (4 * width (v4l2_pix_fmt frm))) (alignment frm) in
  let addr0 :=
    u32 (addr_0 addr + pitch * top (r (sel frm)) + 4 * left (r (sel frm))) in
  exists g' : sunxi_g2d,
    g2d_rectfill CONFIG_ARCH_DMA_ADDR_T_64BIT ctx addr g = Ok (tt, g') /\
    base g' V0_PITCH0 = pitch /\ base g' WB_PITCH0 = pitch /\
    base g' V0_LADDR0 = addr0 /\ base g' WB_LADD0 = addr0.
Proof.
  intros frm pitch addr0.
  unfold g2d_rectfill, g2d_vlayer_set, g2d_wb_set, g2d_bld_cs_set.
  rewrite !hw_id_shipped.
  unfold vlayer_set_id, wb_set_id, g2d_bldin_set, bld_cs_set_id, g2d_fc_set,
    g2d_hw_reset, g2d_mixer_irq_enable.
  rewrite vlayer_chroma_packed, wb_chroma_packed by reflexivity.
  change (0 =? 0) with true.
  change (G2D_FORMAT_BGRX8888 <=? G2D_FORMAT_BGRA1010102) with true.
  change (ycnt_of (fmt2yuvcnt G2D_FORMAT_BGRX8888)) with 4.
  fold frm. fold pitch.
  destruct (premult_alpha frm), CONFIG_ARCH_DMA_ADDR_T_64BIT; io_run.
  all: eexists; split; [reflexivity |].
  all: repeat split; read_reg.
  all: rewrite ?land_low32, ?u32_add3; try reflexivity.
  all: apply ALIGN_u32.
Qed.

(** X23.  The fill rectangle stays inside the buffer.  Take a context whose
    capture format is one [g2d_try_fmt] leaves unchanged (as [g2d_s_fmt]
    stores it), whose capture alignment is 1, 2 or 4, and a rectangle
    [g2d_s_selection] accepts that is non-empty (width and height at least
    1) and whose sums [left + width] and [top + height] stay below 2^32
    ([left] and [top] being signed 32-bit values).  Then [g2d_rectfill]
    programs, on both sides, a pitch equal to [bytesperline] and a plane-0
    address equal to the buffer address plus
    [bytesperline * top + 4 * left], and the end of the last line of the
    rectangle, [bytesperline * (top + height - 1) + 4 * (left + width)], is
    at most [sizeimage].  Without the bound on the sums the rectangle can be
    wider than the frame, as [g2d_s_selection_width_wraps] below shows. *)
Theorem g2d_rectfill_within_buffer :
  forall (regs_h : sunxi_g2d_regs) (CONFIG_ARCH_DMA_ADDR_T_64BIT : bool)
         (ctx : sunxi_g2d_ctx) (rc : v4l2_rect) (dst_addr : Z)
         (g : sunxi_g2d),
  let pix := v4l2_pix_fmt (dst ctx) in
  g2d_try_fmt pix = Ok (0, pix) ->
  In (alignment (dst ctx)) [1; 2; 4] ->
  - 2 ^ 31 <= left rc < 2 ^ 31 -> - 2 ^ 31 <= top rc < 2 ^ 31 ->
  1 <= r_width rc -> 1 <= r_height rc ->
  left rc + r_width rc < 2 ^ 32 -> top rc + r_height rc < 2 ^ 32 ->
  fst (g2d_s_selection ctx (selection_request DST rc)) = 0 ->
  let ctx' := snd (g2d_s_selection ctx (selection_request DST rc)) in
  let off := bytesperline pix * top rc + 4 * left rc in
  exists g' : sunxi_g2d,
    g2d_rectfill CONFIG_ARCH_DMA_ADDR_T_64BIT ctx' (dst_addr, 0, 0) g
      = Ok (tt, g') /\
    base g' V0_PITCH0 = bytesperline pix /\
    base g' WB_PITCH0 = bytesperline pix /\
    base g' V0_LADDR0 = u32 (dst_addr + off) /\
    base g' WB_LADD0 = u32 (dst_addr + off) /\
    0 <= off /\
    off + bytesperline pix * (r_height rc - 1) + 4 * r_width rc
      <= sizeimage pix.
Proof.
  intros regs_h cfg ctx rc dst_addr g pix Hfix Halign Hl Ht Hw Hh Hsw Hsh
    Hsel ctx' off.
  destruct (g2d_try_fmt_fixed_point pix Hfix) as (_ & HW & HH & Hbpl & Hsize).
  assert (Htry : g2d_try_selection ctx (selection_request DST rc) = 0).
  { unfold g2d_s_selection in Hsel.
    destruct (Z.eqb_spec (g2d_try_selection ctx (selection_request DST rc)) 0)
      as [E | N]; [exact E |].
    cbn [negb fst] in Hsel. contradiction. }
  assert (Hctx' : ctx' = set_frame ctx DST (set_sel_r (dst ctx) rc)).
  { subst ctx'. unfold g2d_s_selection. rewrite Htry.
    destruct rc; reflexivity. }
  rewrite g2d_try_selection_exact in Htry
    by (cbn [frame_of]; fold pix; lia).
  cbn [frame_of] in Htry. fold pix in Htry.
  destruct (Z.leb_spec 0 (left rc)) as [Hl0 | ];
    [| cbn in Htry; vm_compute in Htry; discriminate Htry].
  destruct (Z.leb_spec 0 (top rc)) as [Ht0 | ];
    [| cbn in Htry; vm_compute in Htry; discriminate Htry].
  rewrite (u32_small (left rc + r_width rc)),
    (u32_small (top rc + r_height rc)) in Htry by lia.
  destruct (Z.leb_spec (left rc) (width pix - 1));
    [| cbn in Htry; vm_compute in Htry; discriminate Htry].
  destruct (Z.leb_spec (top rc) (height pix - 1));
    [| cbn in Htry; vm_compute in Htry; discriminate Htry].
  destruct (Z.leb_spec (left rc + r_width rc) (width pix - 1)) as [Hr | ];
    [| cbn in Htry; vm_compute in Htry; discriminate Htry].
  destruct (Z.leb_spec (top rc + r_height rc) (height pix - 1)) as [Hb | ];
    [| cbn in Htry; vm_compute in Htry; discriminate Htry].
  clear Htry.
  destruct (g2d_rectfill_plane0 regs_h cfg ctx' (dst_addr, 0, 0) g)
    as (g' & Hrun & Hp0 & Hp0' & Ha0 & Ha0').
  assert (Hpitch :
    ALIGN (u32 (4 * width (v4l2_pix_fmt (dst ctx')))) (alignment (dst ctx'))
    = bytesperline pix).
  { rewrite Hctx'. cbn [set_frame dst set_sel_r v4l2_pix_fmt alignment].
    fold pix. rewrite u32_small by lia.
    rewrite ALIGN_of_multiple_of_4 by (try assumption; lia).
    symmetry. exact Hbpl. }
  rewrite Hpitch in Hp0, Hp0', Ha0, Ha0'.
  assert (Hsel' : r (sel (dst ctx')) = rc)
    by (rewrite Hctx'; reflexivity).
  rewrite Hsel' in Ha0, Ha0'. cbn [addr_0 fst] in Ha0, Ha0'.
  exists g'. split; [exact Hrun |].
  split; [exact Hp0 |]. split; [exact Hp0' |].
  subst off.
  split; [rewrite Ha0; f_equal; lia |].
  split; [rewrite Ha0'; f_equal; lia |].
  rewrite Hbpl, Hsize. split; nia.
Qed.

Lemma g2d_rectfill_within_buffer_witness :
  let ctx := capture_800x480_ctx in
  let rc := {| left := 200; top := 120; r_width := 400; r_height := 240 |} in
  let pix := v4l2_pix_fmt (dst ctx) in
  let ctx' := snd (g2d_s_selection ctx (selection_request DST rc)) in
  let off := bytesperline pix * top rc + 4 * left rc in
  exists g' : sunxi_g2d,
    @g2d_rectfill example_regs false ctx' (0x40000000, 0, 0) blank_device
      = Ok (tt, g') /\
    base g' V0_PITCH0 = bytesperline pix /\
    base g' WB_PITCH0 = bytesperline pix /\
    base g' V0_LADDR0 = u32 (0x40000000 + off) /\
    base g' WB_LADD0 = u32 (0x40000000 + off) /\
    0 <= off /\
    off + bytesperline pix * (r_height rc - 1) + 4 * r_width rc
      <= sizeimage pix.
Proof.
  apply (g2d_rectfill_within_buffer example_regs false capture_800x480_ctx
           {| left := 200; top := 120; r_width := 400; r_height := 240 |}
           0x40000000 blank_device).
  - reflexivity.
  - cbn. auto.
  - cbn; lia.
  - cbn; lia.
  - cbn; lia.
  - cbn; lia.
  - cbn; lia.
  - cbn; lia.
  - reflexivity.
Defined.

(** ** The far-edge test at 32 bits *)

(** X24.  [g2d_try_selection] adds [left] and [width] at [unsigned int]
    before comparing with the frame width.  A rectangle whose width is so
    large that the sum passes 2^32 is compared by the wrapped sum: when that
    lies inside the frame, [g2d_s_selection] accepts the rectangle and
    stores it, though it is wider than the frame. *)
Theorem g2d_s_selection_width_wraps :
  forall (ctx : sunxi_g2d_ctx) (f : frame_id) (rc : v4l2_rect),
  let W := width (v4l2_pix_fmt (frame_of ctx f)) in
  let H := height (v4l2_pix_fmt (frame_of ctx f)) in
  1 <= W <= 2 ^ 31 -> 1 <= H < 2 ^ 32 ->
  0 <= left rc <= W - 1 -> left rc < 2 ^ 31 ->
  0 <= top rc -> 0 <= r_height rc -> top rc + r_height rc <= H - 1 ->
  2 ^ 32 <= left rc + r_width rc <= 2 ^ 32 + W - 1 ->
  r_width rc < 2 ^ 32 ->
  fst (g2d_s_selection ctx (selection_request f rc)) = 0 /\
  r (sel (frame_of (snd (g2d_s_selection ctx (selection_request f rc))) f))
    = rc /\
  W < r_width rc.
Proof.
  intros ctx f rc W H HW HH Hl Hl31 Ht Hh Hb Hwrap Hw32.
  assert (Htry : g2d_try_selection ctx (selection_request f rc) = 0).
  { unfold g2d_try_selection.
    replace (get_frame (sel_type (selection_request f rc))) with
      (inl (B := Z) f) by (destruct f; reflexivity).
    replace (if V4L2_TYPE_IS_CAPTURE (sel_type (selection_request f rc))
             then negb (target (selection_request f rc)
                        =? V4L2_SEL_TGT_COMPOSE)
             else if V4L2_TYPE_IS_OUTPUT (sel_type (selection_request f rc))
                  then negb (target (selection_request f rc)
                             =? V4L2_SEL_TGT_CROP)
                  else false)
      with false by (destruct f; reflexivity).
    replace (r (selection_request f rc)) with rc by (destruct f; reflexivity).
    cbv zeta. fold W. fold H.
    rewrite (u32_small (left rc)), (u32_small (top rc)),
      (u32_small (W - 1)), (u32_small (H - 1)),
      (u32_small (top rc + r_height rc)) by lia.
    assert (Hsum : u32 (left rc + r_width rc) = left rc + r_width rc - 2 ^ 32).
    { unfold u32.
      replace (left rc + r_width rc)
        with (left rc + r_width rc - 2 ^ 32 + 1 * 2 ^ 32) at 1 by lia.
      rewrite Z.mod_add by lia. apply Z.mod_small. lia. }
    rewrite Hsum.
    rewrite (proj2 (Z.ltb_ge (top rc) 0)) by lia.
    rewrite (proj2 (Z.ltb_ge (left rc) 0)) by lia.
    cbn [orb].
    repeat match goal with
           | |- context [?a >? ?b] =>
               replace (a >? b) with false by (symmetry; rewrite Z.gtb_ltb;
                                               apply Z.ltb_ge; lia)
           end.
    reflexivity. }
  unfold g2d_s_selection. rewrite Htry.
  change (negb (0 =? 0)) with false. cbv iota.
  replace (get_frame (sel_type (selection_request f rc))) with
    (inl (B := Z) f) by (destruct f; reflexivity).
  cbn [fst snd]. rewrite frame_of_set_frame_same.
  split; [reflexivity |].
  split; [destruct f, rc; reflexivity | lia].
Qed.

Lemma g2d_s_selection_width_wraps_witness :
  let rc := {| left := 16; top := 0; r_width := 2 ^ 32 - 16; r_height := 1 |} in
  fst (g2d_s_selection g2d_open_ctx (selection_request DST rc)) = 0 /\
  r (sel (frame_of
            (snd (g2d_s_selection g2d_open_ctx (selection_request DST rc)))
            DST)) = rc /\
  width (v4l2_pix_fmt (frame_of g2d_open_ctx DST)) < r_width rc.
Proof.
  apply (g2d_s_selection_width_wraps g2d_open_ctx DST
           {| left := 16; top := 0; r_width := 2 ^ 32 - 16; r_height := 1 |});
    cbv - [Z.le Z.lt Z.add Z.sub Z.pow]; lia.
Defined.
